(** * Bayesian SN cosmology notebook: a shallow embedding of its code cells

    The repository is one IPython notebook.  Its code cells draw a mock
    population of supernovae with numpy's global random state, start a
    "simple Monte Carlo" loop over candidate parameter sets held in
    pandas data frames, and define the two functions [likelihood] and
    [weight_by_likelihood].

    Python floats are modelled as exact rationals ([Q]): every finite
    float is a rational, and rounding is left out.  Operations whose float
    result is not finite (a division by zero) are outside the model, so
    statements about values exclude them by hypothesis. *)

From Stdlib Require Import Ascii QArith Qreals Lqa Reals Lra.
From stdpp Require Import base gmap strings list.

Open Scope Q_scope.

(** ** numpy: one-dimensional arrays of floats *)

Module Numpy.

Definition array := list Q.

(** [np.ones_like(a)] *)
Definition ones_like (a : array) : array := map (fun _ => 1) a.

(** [np.ones(n)] *)
Definition ones (n : nat) : array := repeat 1 n.

(** [k * a] for a Python scalar [k] *)
Definition scalar_mul (k : Q) (a : array) : array := map (Qmult k) a.

(** [k - a] for a Python scalar [k] *)
Definition scalar_sub (k : Q) (a : array) : array := map (fun x => k - x) a.

(** An elementwise binary operation on two arrays of the same length;
    numpy raises a ValueError when the shapes do not match. *)
Definition elementwise (f : Q -> Q -> Q) (a b : array) : option array :=
  if decide (length a = length b) then Some (zip_with f a b) else None.

(** [np.sum(a)] *)
Definition sum (a : array) : Q := foldr Qplus 0 a.

(** *** The global random state

    The notebook never seeds numpy.  The state of the generator is
    modelled by the sequence of standard variates it is going to return
    (the tape) and the number of variates already taken.  A sampler call
    takes the next [size] variates and scales them. *)

Record RandomState := { tape : nat -> Q; pos : nat }.

Definition variates (size : nat) (st : RandomState) : array :=
  map (tape st) (seq (pos st) size).

Definition advance (size : nat) (st : RandomState) : RandomState :=
  {| tape := tape st; pos := (pos st + size)%nat |}.

(** [np.random.normal(loc, scale, size)] *)
Definition random_normal (loc scale : Q) (size : nat) (st : RandomState)
    : array * RandomState :=
  (map (fun e => loc + scale * e) (variates size st), advance size st).

(** [np.random.exponential(scale, size)] *)
Definition random_exponential (scale : Q) (size : nat) (st : RandomState)
    : array * RandomState :=
  (map (fun e => scale * e) (variates size st), advance size st).

(** [np.random.uniform(low, high, size)] *)
Definition random_uniform (low high : Q) (size : nat) (st : RandomState)
    : array * RandomState :=
  (map (fun u => low + (high - low) * u) (variates size st), advance size st).

(** [scipy.stats.norm.rvs()], one standard normal variate; scipy draws
    from numpy's global state *)
Definition norm_rvs (st : RandomState) : Q * RandomState :=
  (tape st (pos st), advance 1 st).

(** [scipy.stats.norm.rvs(size=n)] *)
Definition norm_rvs_size (size : nat) (st : RandomState) : array * RandomState :=
  (variates size st, advance size st).

End Numpy.

(** ** The IPython kernel: a global namespace and the random state *)

Module Kernel.

Inductive value :=
| VInt (n : Z)
| VFloat (q : Q)
| VArray (a : Numpy.array)
| VModule (name : string)
| VClass (name : string)
| VCosmology (H0 Om0 : Q).

Inductive exn :=
| SyntaxError (line : nat)
| NameError (name : string)
| TypeError
| ValueError.

Inductive outcome (A : Type) :=
| Ok (a : A)
| Raise (e : exn).
Arguments Ok {A} a.
Arguments Raise {A} e.

Record kernel := {
  globals : gmap string value;
  random : Numpy.RandomState
}.

(** A statement runs in a kernel, and leaves a kernel behind also when it
    raises: the names bound before the exception stay bound. *)
Definition py (A : Type) : Type := kernel -> outcome A * kernel.

#[export] Instance py_ret : MRet py := fun A a k => (Ok a, k).

#[export] Instance py_bind : MBind py := fun A B f m k =>
  match m k with
  | (Ok a, k') => f a k'
  | (Raise e, k') => (Raise e, k')
  end.

Definition raise {A} (e : exn) : py A := fun k => (Raise e, k).

(** Reading a global name *)
Definition load (name : string) : py value :=
  fun k => match globals k !! name with
           | Some v => (Ok v, k)
           | None => (Raise (NameError name), k)
           end.

(** Binding a global name *)
Definition store (name : string) (v : value) : py unit :=
  fun k => (Ok tt, {| globals := <[name := v]> (globals k); random := random k |}).

Definition load_array (name : string) : py Numpy.array :=
  v ← load name ;
  match v with VArray a => mret a | _ => raise TypeError end.

Definition load_float (name : string) : py Q :=
  v ← load name;
  match v with
  | VFloat q => mret q
  | VInt n => mret (inject_Z n)
  | _ => raise TypeError
  end.

(** A name used as the [size=] of a sampler call *)
Definition load_size (name : string) : py nat :=
  v ← load name;
  match v with
  | VInt n => if (n <? 0)%Z then raise ValueError else mret (Z.to_nat n)
  | _ => raise TypeError
  end.

(** A call into [np.random] *)
Definition sample {A} (f : Numpy.RandomState -> A * Numpy.RandomState) : py A :=
  fun k => (Ok (fst (f (random k))),
            {| globals := globals k; random := snd (f (random k)) |}).

(** An array operation that raises a ValueError on mismatched shapes *)
Definition shaped {A} (o : option A) : py A :=
  match o with Some a => mret a | None => raise ValueError end.

End Kernel.

(** ** astropy: the constructor of the flat cosmology

    [FlatLambdaCDM(H0=70, Om0=Om0)] raises a ValueError when the matter
    density is negative; any other density is accepted, one above 1
    included (the dark-energy density is then negative). *)

Module Astropy.

Definition class_name : string := "astropy.cosmology.FlatLambdaCDM".

Definition Om0_accepted (Om0 : Q) : bool := Qle_bool 0 Om0.

End Astropy.

(** ** pandas: data frames of float columns

    A frame has a number of rows (its index is the default range index
    throughout the notebook) and an ordered list of labelled columns. *)

Module Pandas.

Record DataFrame := {
  nrows : nat;
  columns : list (string * Numpy.array)
}.

(** [pd.DataFrame(np.ones((n, len(labels))), columns=labels)] *)
Definition DataFrame_ones (n : nat) (labels : list string) : DataFrame :=
  {| nrows := n; columns := map (fun l => (l, Numpy.ones n)) labels |}.

Definition has_label (label : string) (cols : list (string * Numpy.array)) : bool :=
  existsb (fun c => String.eqb (fst c) label) cols.

(** Assignment to a column: every column carrying the label takes the new
    values in place; a label that is not there is appended as the last
    column. *)
Definition set_column (label : string) (col : Numpy.array)
    (cols : list (string * Numpy.array)) : list (string * Numpy.array) :=
  if has_label label cols
  then map (fun c => if String.eqb (fst c) label then (fst c, col) else c) cols
  else cols ++ [(label, col)].

(** [df[label] = v] for a scalar [v], which is broadcast to every row *)
Definition setitem_scalar (df : DataFrame) (label : string) (v : Q) : DataFrame :=
  {| nrows := nrows df;
     columns := set_column label (repeat v (nrows df)) (columns df) |}.

(** [df[label] = a] for an array [a]; a length that differs from the
    number of rows raises a ValueError *)
Definition setitem_array (df : DataFrame) (label : string) (a : Numpy.array)
    : option DataFrame :=
  if decide (length a = nrows df)
  then Some {| nrows := nrows df; columns := set_column label a (columns df) |}
  else None.

(** [df[label]]: the column as a series, a KeyError when it is missing *)
Fixpoint getitem_cols (cols : list (string * Numpy.array)) (label : string)
    : option Numpy.array :=
  match cols with
  | [] => None
  | (l, c) :: rest => if String.eqb l label then Some c else getitem_cols rest label
  end.

Definition getitem (df : DataFrame) (label : string) : option Numpy.array :=
  getitem_cols (columns df) label.

(** [df[[l1, ..., lk]]]: a new frame with the listed columns, in the
    listed order *)
Fixpoint select_cols (cols : list (string * Numpy.array)) (labels : list string)
    : option (list (string * Numpy.array)) :=
  match labels with
  | [] => Some []
  | l :: rest =>
      match getitem_cols cols l, select_cols cols rest with
      | Some c, Some sel => Some ((l, c) :: sel)
      | _, _ => None
      end
  end.

Definition getitem_list (df : DataFrame) (labels : list string) : option DataFrame :=
  match select_cols (columns df) labels with
  | Some sel => Some {| nrows := nrows df; columns := sel |}
  | None => None
  end.

Definition labels (df : DataFrame) : list string := map fst (columns df).

(** The columns that do not carry the label, in their order. *)
Definition others (label : string) (cols : list (string * Numpy.array))
    : list (string * Numpy.array) :=
  List.filter (fun c => negb (String.eqb (fst c) label)) cols.

(** Frames are objects: a variable holds a reference into the store. *)
Definition ref := nat.
Definition store := gmap nat DataFrame.

End Pandas.

(** ** The notebook: its code cells in order

    A cell is its source text, as the notebook file holds it, and what
    running it does to the kernel.  IPython compiles a cell as a whole
    before it runs any of it. *)

Module Notebook.
Import Kernel.

Record cell := { source : list string; body : py unit }.

(** *** Compiling a cell

    The one syntax error modelled is the one the notebook has: a line
    whose code, comment and trailing blanks apart, ends with [=], so that
    the assignment has no right-hand side. *)

Definition is_blank (c : ascii) : bool :=
  (c =? " ")%char || (c =? "009")%char.

Definition is_quote (c : ascii) : bool :=
  (c =? "'")%char || (c =? "034")%char.

(** The line without its comment; [quote] is the delimiter of the string
    literal the scan is inside of, if any. *)
Fixpoint code_part (quote : option ascii) (line : string) : string :=
  match line with
  | EmptyString => EmptyString
  | String c rest =>
      match quote with
      | Some q =>
          String c (code_part (if (c =? q)%char then None else Some q) rest)
      | None =>
          if (c =? "#")%char then EmptyString
          else String c (code_part (if is_quote c then Some c else None) rest)
      end
  end.

Fixpoint last_code_char (line : string) (seen : option ascii) : option ascii :=
  match line with
  | EmptyString => seen
  | String c rest => last_code_char rest (if is_blank c then seen else Some c)
  end.

Definition incomplete_assignment (line : string) : bool :=
  match last_code_char (code_part None line) None with
  | Some c => (c =? "=")%char
  | None => false
  end.

(** The number of the first offending line, counted from [n] *)
Fixpoint first_incomplete (n : nat) (lines : list string) : option nat :=
  match lines with
  | [] => None
  | l :: rest =>
      if incomplete_assignment l then Some n else first_incomplete (S n) rest
  end.

Definition syntax_error (src : list string) : option nat := first_incomplete 1 src.

Definition run_cell (c : cell) : py unit :=
  fun k => match syntax_error (source c) with
           | Some line => (Raise (SyntaxError line), k)
           | None => body c k
           end.

(** *** Running all cells: execution stops at the first cell that raises *)

Inductive status :=
| Completed
| Halted (cell_number : nat) (e : exn).

Fixpoint run_from (n : nat) (cells : list cell) (k : kernel) : status * kernel :=
  match cells with
  | [] => (Completed, k)
  | c :: rest =>
      match run_cell c k with
      | (Ok _, k') => run_from (S n) rest k'
      | (Raise e, k') => (Halted n e, k')
      end
  end.

Definition run_all (cells : list cell) (k : kernel) : status * kernel :=
  run_from 1 cells k.

(** A kernel that has just started, with the random state it happened to
    be given *)
Definition fresh (t : nat -> Q) : kernel :=
  {| globals := ∅; random := {| Numpy.tape := t; Numpy.pos := 0 |} |}.

Section Cells.

(** [FlatLambdaCDM(H0, Om0).distmod(z).value], astropy's distance modulus *)
Variable distmod : Q -> Q -> Q -> Q.

(** In [1] *)
Definition cell_1 : cell := {|
  source := [ "import scipy as sp";
              "import numpy as np";
              "import sncosmo";
              "import matplotlib.pylab as plt";
              "from astropy.cosmology import FlatLambdaCDM";
              "";
              "%matplotlib nbagg" ];
  body :=
    store "sp" (VModule "scipy");;
    store "np" (VModule "numpy");;
    store "sncosmo" (VModule "sncosmo");;
    store "plt" (VModule "matplotlib.pylab");;
    store "FlatLambdaCDM" (VClass "astropy.cosmology.FlatLambdaCDM")
|}.

(** In [2] *)
Definition cell_2 : cell := {|
  source := [ "size_we_want = 250" ];
  body := store "size_we_want" (VInt 250)
|}.

(** In [3] *)
Definition cell_3 : cell := {|
  source := [ "x1_true_dist = np.random.normal(loc=0, scale=1, size=size_we_want)" ];
  body :=
    _ ← load "np";
    size ← load_size "size_we_want";
    x ← sample (Numpy.random_normal 0 1 size);
    store "x1_true_dist" (VArray x)
|}.

(** In [4] *)
Definition cell_4 : cell := {|
  source := [ "x1_obs_unc = 0.5*np.ones_like(x1_true_dist)";
              "";
              "x1_obs_dist = x1_true_dist + x1_obs_unc*np.random.normal(loc=0, scale=1, size=size_we_want)" ];
  body :=
    _ ← load "np";
    x1_true_dist ← load_array "x1_true_dist";
    store "x1_obs_unc" (VArray (Numpy.scalar_mul 0.5 (Numpy.ones_like x1_true_dist)));;
    x1_true_dist ← load_array "x1_true_dist";
    x1_obs_unc ← load_array "x1_obs_unc";
    _ ← load "np";
    size ← load_size "size_we_want";
    noise ← sample (Numpy.random_normal 0 1 size);
    scaled ← shaped (Numpy.elementwise Qmult x1_obs_unc noise);
    obs ← shaped (Numpy.elementwise Qplus x1_true_dist scaled);
    store "x1_obs_dist" (VArray obs)
|}.

(** In [5] *)
Definition cell_5 : cell := {|
  source := [ "c_true_norm = np.random.normal(loc=0, scale=0.1, size=size_we_want)";
              "c_true_exp = np.random.exponential(scale=0.1/1, size=size_we_want)";
              "c_true_dist = np.add(c_true_norm, c_true_exp)";
              "";
              "c_obs_unc = 0.5*np.ones_like(c_true_dist)";
              "";
              "c_obs_dist = c_true_dist + c_obs_unc*np.random.normal(loc=0, scale=1, size=size_we_want)" ];
  body :=
    _ ← load "np";
    size ← load_size "size_we_want";
    c_norm ← sample (Numpy.random_normal 0 0.1 size);
    store "c_true_norm" (VArray c_norm);;
    _ ← load "np";
    size ← load_size "size_we_want";
    c_exp ← sample (Numpy.random_exponential (0.1 / 1) size);
    store "c_true_exp" (VArray c_exp);;
    _ ← load "np";
    c_true_norm ← load_array "c_true_norm";
    c_true_exp ← load_array "c_true_exp";
    c_true ← shaped (Numpy.elementwise Qplus c_true_norm c_true_exp);
    store "c_true_dist" (VArray c_true);;
    _ ← load "np";
    c_true_dist ← load_array "c_true_dist";
    store "c_obs_unc" (VArray (Numpy.scalar_mul 0.5 (Numpy.ones_like c_true_dist)));;
    c_true_dist ← load_array "c_true_dist";
    c_obs_unc ← load_array "c_obs_unc";
    _ ← load "np";
    size ← load_size "size_we_want";
    noise ← sample (Numpy.random_normal 0 1 size);
    scaled ← shaped (Numpy.elementwise Qmult c_obs_unc noise);
    obs ← shaped (Numpy.elementwise Qplus c_true_dist scaled);
    store "c_obs_dist" (VArray obs)
|}.

(** In [6] *)
Definition cell_6 : cell := {|
  source := [ "z_dist = np.random.uniform(0.2, 1.0, size=size_we_want)" ];
  body :=
    _ ← load "np";
    size ← load_size "size_we_want";
    z ← sample (Numpy.random_uniform 0.2 1.0 size);
    store "z_dist" (VArray z)
|}.

(** In [7] *)
Definition cell_7 : cell := {|
  source := [ "alpha = 0.13";
              "beta = 3.0";
              "MB = -19.1";
              "Omega_m = 0.3";
              "sigma_int = 0.15" ];
  body :=
    store "alpha" (VFloat 0.13);;
    store "beta" (VFloat 3.0);;
    store "MB" (VFloat (-19.1));;
    store "Omega_m" (VFloat 0.3);;
    store "sigma_int" (VFloat 0.15)
|}.

(** In [8].  The name [FlatLambdaCDM] has to be bound to the class for
    the call to be one of the constructor, and the constructor rejects a
    negative [Om0]. *)
Definition cell_8 : cell := {|
  source := [ "cosmo = FlatLambdaCDM(H0=70, Om0=Omega_m)";
              "mu_dist = cosmo.distmod(z_dist).value" ];
  body :=
    cls ← load "FlatLambdaCDM";
    Om0 ← load_float "Omega_m";
    match cls with
    | VClass name =>
        if String.eqb name Astropy.class_name then
          if Astropy.Om0_accepted Om0 then store "cosmo" (VCosmology 70 Om0)
          else raise ValueError
        else raise TypeError
    | _ => raise TypeError
    end;;
    cosmo ← load "cosmo";
    match cosmo with
    | VCosmology H0 Om0 =>
        z_dist ← load_array "z_dist";
        store "mu_dist" (VArray (map (distmod H0 Om0) z_dist))
    | _ => raise TypeError
    end
|}.

(** In [9].  The last line of the source has no right-hand side; the body
    is what the two complete statements above it would do. *)
Definition cell_9 : cell := {|
  source := [ "mb_true_mean = MB - alpha*x1_true_dist + beta*c_true_dist + mu_dist ";
              "mb_true_var = sigma_int**2";
              "";
              "mb_true = " ];
  body :=
    MB ← load_float "MB";
    alpha ← load_float "alpha";
    x1_true_dist ← load_array "x1_true_dist";
    beta ← load_float "beta";
    c_true_dist ← load_array "c_true_dist";
    mu_dist ← load_array "mu_dist";
    t ← shaped (Numpy.elementwise Qplus
                  (Numpy.scalar_sub MB (Numpy.scalar_mul alpha x1_true_dist))
                  (Numpy.scalar_mul beta c_true_dist));
    mean ← shaped (Numpy.elementwise Qplus t mu_dist);
    store "mb_true_mean" (VArray mean);;
    sigma_int ← load_float "sigma_int";
    store "mb_true_var" (VFloat (sigma_int ^ 2))
|}.

(** The cells that draw the mock population, In [1] to In [9] *)
Definition generator_cells : list cell :=
  [ cell_1; cell_2; cell_3; cell_4; cell_5; cell_6; cell_7; cell_8; cell_9 ].

End Cells.

(** *** The population the cells draw

    The arrays that In [3] to In [8] bind, written out as functions of the
    random state the kernel starts with.  [run_generator] below proves
    that running the cells binds exactly these. *)

Section Population.

Variable distmod : Q -> Q -> Q -> Q.
Variable t : nat -> Q.

(** The random state after [n] sampler calls of In [3] to In [6] *)
Definition state_after (n : nat) : Numpy.RandomState :=
  {| Numpy.tape := t; Numpy.pos := n * 250 |}.

Definition x1_true_dist : Numpy.array :=
  fst (Numpy.random_normal 0 1 250 (state_after 0)).
Definition x1_obs_unc : Numpy.array :=
  Numpy.scalar_mul 0.5 (Numpy.ones_like x1_true_dist).
Definition x1_obs_dist : Numpy.array :=
  zip_with Qplus x1_true_dist
    (zip_with Qmult x1_obs_unc (fst (Numpy.random_normal 0 1 250 (state_after 1)))).
Definition c_true_norm : Numpy.array :=
  fst (Numpy.random_normal 0 0.1 250 (state_after 2)).
Definition c_true_exp : Numpy.array :=
  fst (Numpy.random_exponential (0.1 / 1) 250 (state_after 3)).
Definition c_true_dist : Numpy.array :=
  zip_with Qplus c_true_norm c_true_exp.
Definition c_obs_unc : Numpy.array :=
  Numpy.scalar_mul 0.5 (Numpy.ones_like c_true_dist).
Definition c_obs_dist : Numpy.array :=
  zip_with Qplus c_true_dist
    (zip_with Qmult c_obs_unc (fst (Numpy.random_normal 0 1 250 (state_after 4)))).
Definition z_dist : Numpy.array :=
  fst (Numpy.random_uniform 0.2 1.0 250 (state_after 5)).
Definition mu_dist : Numpy.array :=
  map (distmod 70 0.3) z_dist.

(** The global namespace after In [8] *)
Definition generated : gmap string value :=
  <["mu_dist" := VArray mu_dist]> (
  <["cosmo" := VCosmology 70 0.3]> (
  <["sigma_int" := VFloat 0.15]> (
  <["Omega_m" := VFloat 0.3]> (
  <["MB" := VFloat (-19.1)]> (
  <["beta" := VFloat 3.0]> (
  <["alpha" := VFloat 0.13]> (
  <["z_dist" := VArray z_dist]> (
  <["c_obs_dist" := VArray c_obs_dist]> (
  <["c_obs_unc" := VArray c_obs_unc]> (
  <["c_true_dist" := VArray c_true_dist]> (
  <["c_true_exp" := VArray c_true_exp]> (
  <["c_true_norm" := VArray c_true_norm]> (
  <["x1_obs_dist" := VArray x1_obs_dist]> (
  <["x1_obs_unc" := VArray x1_obs_unc]> (
  <["x1_true_dist" := VArray x1_true_dist]> (
  <["size_we_want" := VInt 250]> (
  <["FlatLambdaCDM" := VClass "astropy.cosmology.FlatLambdaCDM"]> (
  <["plt" := VModule "matplotlib.pylab"]> (
  <["sncosmo" := VModule "sncosmo"]> (
  <["np" := VModule "numpy"]> (
  <["sp" := VModule "scipy"]> ∅))))))))))))))))))))).

Definition generated_kernel : kernel :=
  {| globals := generated; random := state_after 6 |}.

End Population.

End Notebook.

(** ** The simple Monte Carlo cell

    The cell reads [z], [mb_obs], [x1_obs] and [c_obs], which no cell of
    the notebook binds, and calls [scipy.stats], which a later cell
    imports: the data are taken as given, and the draws come from the
    random state.  An exception (a missing column, mismatched shapes, a
    negative [Omega_m] given to the constructor of [cosmo]) is [None].
    The variable [likelihood] of this cell is a float; the function of
    that name is defined by a later cell. *)

Module Sampler.
Import Pandas.

(** A Python value in the arithmetic of the loop: a float, or a series
    (an array) of floats *)
Inductive operand :=
| Scalar (q : Q)
| Series (a : Numpy.array).

(** Arithmetic with broadcasting of scalars *)
Definition binop (f : Q -> Q -> Q) (x y : operand) : option operand :=
  match x, y with
  | Scalar a, Scalar b => Some (Scalar (f a b))
  | Scalar a, Series b => Some (Series (map (f a) b))
  | Series a, Scalar b => Some (Series (map (fun v => f v b) a))
  | Series a, Series b => Series <$> Numpy.elementwise f a b
  end.

(** [x**2] *)
Definition square (x : operand) : operand :=
  match x with
  | Scalar q => Scalar (q ^ 2)
  | Series a => Series (map (fun v => v ^ 2) a)
  end.

(** [def LogGaussian(x,mu,sig): return -0.5*(x-mu)**2 /sig**2] *)
Definition LogGaussian (x mu sig : operand) : option operand :=
  d ← binop Qminus x mu;
  n ← binop Qmult (Scalar (-0.5)) (square d);
  binop Qdiv n (square sig).

Definition entries (x : operand) : Numpy.array :=
  match x with
  | Scalar q => [q]
  | Series a => a
  end.

(** [np.sum([a, b, c])] for series of one length: the sum of every entry
    of the stacked array *)
Definition np_sum (rows : list operand) : option Q :=
  match rows with
  | [] => Some 0
  | r :: rest =>
      if forallb (fun r' => Nat.eqb (length (entries r')) (length (entries r))) rest
      then Some (Numpy.sum (concat (map entries rows)))
      else None
  end.

Definition par_labels : list string :=
  [ "x1_true"; "c_true"; "mb_true"; "alpha"; "beta"; "MB"; "Omega_m"; "sigma_int" ].

(** The variables of the cell that the loop assigns *)
Record state := {
  schain : list DataFrame;
  datafr : option DataFrame;
  mb_true : option operand;
  likelihood : option Q;
  random : Numpy.RandomState
}.

Section Loop.

Variable nSN : nat.
Variables mu mb_obs x1_obs c_obs : operand.

(** The body of [for i in range(N):] *)
Definition iteration (s : state) : option state :=
  let datafr := DataFrame_ones nSN par_labels in
  let '(alpha, r) := Numpy.norm_rvs (random s) in
  let datafr := setitem_scalar datafr "alpha" alpha in
  let '(beta, r) := Numpy.norm_rvs r in
  let datafr := setitem_scalar datafr "beta" beta in
  let '(MB, r) := Numpy.norm_rvs r in
  let datafr := setitem_scalar datafr "MB" MB in
  let '(sigma_int, r) := Numpy.norm_rvs r in
  let datafr := setitem_scalar datafr "sigma_int" sigma_int in
  let '(Omega_m, r) := Numpy.norm_rvs r in
  let datafr := setitem_scalar datafr "Omega_m" Omega_m in
  let '(x1_true, r) := Numpy.norm_rvs_size nSN r in
  datafr ← setitem_array datafr "x1_true" x1_true;
  let '(c_true, r) := Numpy.norm_rvs_size nSN r in
  datafr ← setitem_array datafr "c_true" c_true;
  col_MB ← getitem datafr "MB";
  col_alpha ← getitem datafr "alpha";
  col_x1 ← getitem datafr "x1_true";
  ax ← binop Qmult (Series col_alpha) (Series col_x1);
  t ← binop Qminus (Series col_MB) ax;
  col_beta ← getitem datafr "beta";
  col_c ← getitem datafr "c_true";
  bc ← binop Qmult (Series col_beta) (Series col_c);
  t ← binop Qplus t bc;
  mb_true ← binop Qplus t mu;
  col_sigma ← getitem datafr "sigma_int";
  likelihood_mobs ← LogGaussian mb_obs mb_true (square (Series col_sigma));
  col_x1 ← getitem datafr "x1_true";
  likelihood_x1 ← LogGaussian x1_obs (Series col_x1) (Scalar (0.5 ^ 2));
  col_c ← getitem datafr "c_true";
  likelihood_c ← LogGaussian c_obs (Series col_c) (Scalar (0.5 ^ 2));
  likelihood ← np_sum [likelihood_mobs; likelihood_x1; likelihood_c];
  chosen ← getitem_list datafr
             [ "mb_true"; "alpha"; "beta"; "MB"; "Omega_m"; "sigma_int" ];
  Some {| schain := schain s ++ [chosen];
          datafr := Some datafr;
          mb_true := Some mb_true;
          likelihood := Some likelihood;
          random := r |}.

(** [for i in range(N): ...] *)
Fixpoint loop (N : nat) (s : state) : option state :=
  match N with
  | O => Some s
  | S N' => s' ← iteration s; loop N' s'
  end.

(** [schain = []] and then the loop; [datafr] is the frame an earlier cell
    left, if any *)
Definition sampling_loop (N : nat) (datafr0 : option DataFrame)
    (st : Numpy.RandomState) : option state :=
  loop N {| schain := []; datafr := datafr0; mb_true := None;
            likelihood := None; random := st |}.

End Loop.

(** The literals of the cell *)
Definition N : nat := 2.
Definition nSN : nat := 10.

(** [mu = cosmo.distmod(z).value], for the [cosmo] that
    [FlatLambdaCDM(H0=70, Om0=Omega_m)] has constructed from the global
    [Omega_m] *)
Definition distance_moduli (distmod : Q -> Q -> Q -> Q) (Omega_m : Q) (z : operand)
    : operand :=
  match z with
  | Scalar q => Scalar (distmod 70 Omega_m q)
  | Series a => Series (map (distmod 70 Omega_m) a)
  end.

(** The whole cell.  The constructor of [cosmo] is called before the
    loop, and raises for a negative [Omega_m]. *)
Definition sampling_cell (distmod : Q -> Q -> Q -> Q) (Omega_m : Q)
    (z mb_obs x1_obs c_obs : operand) (datafr0 : option DataFrame)
    (st : Numpy.RandomState) : option state :=
  if Astropy.Om0_accepted Omega_m then
    sampling_loop nSN (distance_moduli distmod Omega_m z) mb_obs x1_obs c_obs
      N datafr0 st
  else None.

(** *** What an iteration computes, object by object

    The expressions below name the parts of the candidate that an
    iteration draws when it starts in the random state [st]: five
    hyperparameters, then the latents of the [nSN] objects.
    [iteration_run] below proves that the body of the loop computes
    exactly these. *)

Definition variate (st : Numpy.RandomState) (j : nat) : Q :=
  Numpy.tape st (Numpy.pos st + j)%nat.

Definition drawn_alpha (st : Numpy.RandomState) : Q := variate st 0.
Definition drawn_beta (st : Numpy.RandomState) : Q := variate st 1.
Definition drawn_MB (st : Numpy.RandomState) : Q := variate st 2.
Definition drawn_sigma_int (st : Numpy.RandomState) : Q := variate st 3.
Definition drawn_Omega_m (st : Numpy.RandomState) : Q := variate st 4.
Definition drawn_x1_true (st : Numpy.RandomState) (i : nat) : Q :=
  variate st (5 + i).
Definition drawn_c_true (nSN : nat) (st : Numpy.RandomState) (i : nat) : Q :=
  variate st (5 + (nSN + i)).

(** [LogGaussian] on three floats *)
Definition log_gaussian (x mu sig : Q) : Q := -0.5 * (x - mu) ^ 2 / sig ^ 2.

(** The [mb_true] of object [i] *)
Definition mb_true_at (nSN : nat) (mu : Numpy.array) (st : Numpy.RandomState)
    (i : nat) : Q :=
  drawn_MB st - drawn_alpha st * drawn_x1_true st i
  + drawn_beta st * drawn_c_true nSN st i + nth i mu 0.

Definition likelihood_mobs_at (nSN : nat) (mu mb_obs : Numpy.array)
    (st : Numpy.RandomState) (i : nat) : Q :=
  log_gaussian (nth i mb_obs 0) (mb_true_at nSN mu st i) (drawn_sigma_int st ^ 2).

Definition likelihood_x1_at (x1_obs : Numpy.array) (st : Numpy.RandomState)
    (i : nat) : Q :=
  log_gaussian (nth i x1_obs 0) (drawn_x1_true st i) (0.5 ^ 2).

Definition likelihood_c_at (nSN : nat) (c_obs : Numpy.array)
    (st : Numpy.RandomState) (i : nat) : Q :=
  log_gaussian (nth i c_obs 0) (drawn_c_true nSN st i) (0.5 ^ 2).

(** The frame [datafr] at the end of an iteration *)
Definition drawn_frame (nSN : nat) (st : Numpy.RandomState) : DataFrame :=
  {| nrows := nSN;
     columns :=
       [ ("x1_true", map (drawn_x1_true st) (seq 0 nSN));
         ("c_true", map (drawn_c_true nSN st) (seq 0 nSN));
         ("mb_true", repeat 1 nSN);
         ("alpha", repeat (drawn_alpha st) nSN);
         ("beta", repeat (drawn_beta st) nSN);
         ("MB", repeat (drawn_MB st) nSN);
         ("Omega_m", repeat (drawn_Omega_m st) nSN);
         ("sigma_int", repeat (drawn_sigma_int st) nSN) ] |}.

(** The frame an iteration appends to [schain] *)
Definition chain_entry (nSN : nat) (st : Numpy.RandomState) : DataFrame :=
  {| nrows := nSN;
     columns :=
       [ ("mb_true", repeat 1 nSN);
         ("alpha", repeat (drawn_alpha st) nSN);
         ("beta", repeat (drawn_beta st) nSN);
         ("MB", repeat (drawn_MB st) nSN);
         ("Omega_m", repeat (drawn_Omega_m st) nSN);
         ("sigma_int", repeat (drawn_sigma_int st) nSN) ] |}.

(** The value of [likelihood] for the candidate drawn from [st]: the three
    series stacked and summed *)
Definition candidate_likelihood (nSN : nat) (mu mb_obs x1_obs c_obs : Numpy.array)
    (st : Numpy.RandomState) : Q :=
  Numpy.sum (map (likelihood_mobs_at nSN mu mb_obs st) (seq 0 nSN)
             ++ map (likelihood_x1_at x1_obs st) (seq 0 nSN)
             ++ map (likelihood_c_at nSN c_obs st) (seq 0 nSN)
             ++ []).

(** The number of variates an iteration takes *)
Definition draws_per_candidate (nSN : nat) : nat := 5 + (nSN + nSN).

(** The variables of the cell after an iteration begun in state [s] *)
Definition after_iteration (nSN : nat) (mu mb_obs x1_obs c_obs : Numpy.array)
    (s : state) : state :=
  let st := random s in
  {| schain := schain s ++ [chain_entry nSN st];
     datafr := Some (drawn_frame nSN st);
     mb_true := Some (Series (map (mb_true_at nSN mu st) (seq 0 nSN)));
     likelihood := Some (candidate_likelihood nSN mu mb_obs x1_obs c_obs st);
     random := Numpy.advance (draws_per_candidate nSN) st |}.

End Sampler.

(** ** The log-likelihood as the specification words it

    The sum over all objects of three normal log-densities, plus the
    log-prior density of the latents of every object: the standard normal
    population of [x1_true], and a density [log_prior_c] for [c_true].
    This definition follows the words of the specification, over the
    reals; it is what the value computed by the loop is compared with. *)

Module Claimed.

Local Open Scope R_scope.

(** [log N(x | mu, sigma)] *)
Definition log_normal (x mu sigma : R) : R :=
  - ln (sigma * sqrt (2 * PI)) - Rsqr (x - mu) / (2 * Rsqr sigma).

Record object := {
  mb_obs : R; x1_obs : R; c_obs : R;
  mb_true : R; x1_true : R; c_true : R
}.

Definition total (terms : list R) : R := fold_right Rplus 0 terms.

Definition log_likelihood (sigma_mb_obs sigma_x1_obs sigma_c_obs : R)
    (log_prior_c : R -> R) (objects : list object) : R :=
  total (map (fun o =>
                log_normal (mb_obs o) (mb_true o) sigma_mb_obs
                + log_normal (x1_obs o) (x1_true o) sigma_x1_obs
                + log_normal (c_obs o) (c_true o) sigma_c_obs) objects)
  + total (map (fun o => log_normal (x1_true o) 0 1 + log_prior_c (c_true o))
               objects).

(** The objects of a candidate drawn by the loop from the random state
    [st], with the data the loop reads *)
Definition object_at (nSN : nat) (mu mb_obs x1_obs c_obs : Numpy.array)
    (st : Numpy.RandomState) (i : nat) : object :=
  {| mb_obs := Q2R (nth i mb_obs 0%Q);
     x1_obs := Q2R (nth i x1_obs 0%Q);
     c_obs := Q2R (nth i c_obs 0%Q);
     mb_true := Q2R (Sampler.mb_true_at nSN mu st i);
     x1_true := Q2R (Sampler.drawn_x1_true st i);
     c_true := Q2R (Sampler.drawn_c_true nSN st i) |}.

Definition objects (nSN : nat) (mu mb_obs x1_obs c_obs : Numpy.array)
    (st : Numpy.RandomState) : list object :=
  map (object_at nSN mu mb_obs x1_obs c_obs st) (seq 0 nSN).

End Claimed.

(** ** Concrete inputs, for the evaluations below *)

Module Inputs.

(** A stand-in for astropy's distance modulus *)
Definition distmod (H0 Om0 z : Q) : Q := 43 + 5 * z.

(** A random state whose variates are 1/8, 2/8, 3/8, ... *)
Definition tape (i : nat) : Q := inject_Z (Z.of_nat (S i)) / 8.
Definition state0 : Numpy.RandomState := {| Numpy.tape := tape; Numpy.pos := 0 |}.

(** The same variates up to the 1500th, zeros after *)
Definition tape_cut (i : nat) : Q := if (i <? 1500)%nat then tape i else 0.

(** Data for the ten objects the loop expects *)
Definition z : Sampler.operand :=
  Sampler.Series [0.2; 0.3; 0.4; 0.5; 0.6; 0.7; 0.8; 0.9; 1.0; 0.25].
Definition mb_obs : Sampler.operand :=
  Sampler.Series [44; 45; 45; 46; 46; 47; 47; 48; 48; 44].
Definition x1_obs : Sampler.operand :=
  Sampler.Series [0.1; -0.2; 0.3; 0; 1; -1; 0.5; 0.7; -0.3; 0.2].
Definition c_obs : Sampler.operand :=
  Sampler.Series [0; 0.1; 0.2; -0.1; 0.05; 0.3; 0; 0.1; 0.2; 0.15].


(** Two candidates for one object, with data equal to the latents: in
    both, every residual is zero; [x1_true] is 0 in the first and 1 in the
    second. *)
Definition tape_A (i : nat) : Q :=
  match i with
  | 3%nat => 1
  | _ => 0
  end.
Definition tape_B (i : nat) : Q :=
  match i with
  | 3%nat => 1
  | 5%nat => 1
  | _ => 0
  end.
Definition state_A : Numpy.RandomState := {| Numpy.tape := tape_A; Numpy.pos := 0 |}.
Definition state_B : Numpy.RandomState := {| Numpy.tape := tape_B; Numpy.pos := 0 |}.

Definition start (st : Numpy.RandomState) : Sampler.state :=
  {| Sampler.schain := []; Sampler.datafr := None; Sampler.mb_true := None;
     Sampler.likelihood := None; Sampler.random := st |}.

End Inputs.

(** ** The two functions of the notebook *)

Module Inference.
Import Pandas.

(** [def likelihood(parameters): L = 1.0; return L] *)
Definition likelihood {A : Type} (parameters : A) : Q :=
  let L := 1.0 in L.

(** [def weight_by_likelihood(parameters):
       parameters['weight'] = likelihood(parameters)
       return parameters]
    The argument is a reference; the assignment updates the object it
    points to, and the same reference is returned. *)
Definition weight_by_likelihood (parameters : ref) (h : store) : option (ref * store) :=
  match h !! parameters with
  | Some df =>
      Some (parameters,
            <[parameters := setitem_scalar df "weight" (likelihood parameters)]> h)
  | None => None
  end.

(** The weights a frame carries, as a later reader finds them. *)
Definition weights (df : DataFrame) : option Numpy.array := getitem df "weight".

End Inference.

(** ** Running the generator cells again

    The tape of a random state that has already given [p] variates *)

Module Rerun.

Definition shifted (t : nat -> Q) (p : nat) : nat -> Q := fun i => t (p + i)%nat.

End Rerun.

(** ** More concrete inputs *)

Module MoreInputs.

(** The variates of [Inputs.tape], but for the fifth, which the loop takes
    for the first candidate's [Omega_m] *)
Definition tape_other_Omega (i : nat) : Q :=
  if (i =? 4)%nat then 7 else Inputs.tape i.

(** A random state whose variates are all 1/2 *)
Definition half (i : nat) : Q := 1 # 2.

(** A kernel after In [1] and In [7] only *)
Definition kernel_without_draws : Kernel.kernel :=
  {| Kernel.globals :=
       <["Omega_m" := Kernel.VFloat 0.3]> (
       <["FlatLambdaCDM" := Kernel.VClass "astropy.cosmology.FlatLambdaCDM"]> ∅);
     Kernel.random := Inputs.state0 |}.

(** A kernel in which [Omega_m] has been set to 2, with three redshifts *)
Definition kernel_Omega_m_2 : Kernel.kernel :=
  {| Kernel.globals :=
       <["z_dist" := Kernel.VArray [0.2; 0.5; 1.0]]> (
       <["Omega_m" := Kernel.VFloat 2]> (
       <["FlatLambdaCDM" := Kernel.VClass "astropy.cosmology.FlatLambdaCDM"]> ∅));
     Kernel.random := Inputs.state0 |}.

(** A store with one frame of two candidates *)
Definition one_frame : Pandas.store :=
  {[ 0%nat := Pandas.DataFrame_ones 2 Sampler.par_labels ]}.

End MoreInputs.

(** * Properties *)

Import Pandas Inference.

(** C1: [likelihood] returns the constant 1.0 on every argument, of any
    type, so any two arguments give the same result. *)
Theorem likelihood_constant :
  forall (A B : Type) (p : A) (q : B),
    likelihood p = 1.0 /\ likelihood p == 1 /\ likelihood p = likelihood q.
Proof.
  intros A B p q. unfold likelihood. repeat split; reflexivity.
Qed.

(** ** Column assignment *)

Lemma getitem_cols_map_set label col cols :
  has_label label cols = true ->
  getitem_cols
    (map (fun c => if String.eqb (fst c) label then (fst c, col) else c) cols)
    label = Some col.
Proof.
  unfold has_label. induction cols as [|[l c] cols IH]; simpl; [discriminate|].
  destruct (String.eqb l label) eqn:E; simpl.
  - rewrite E. reflexivity.
  - rewrite E. exact IH.
Qed.

Lemma getitem_cols_app_fresh label col cols :
  has_label label cols = false ->
  getitem_cols (cols ++ [(label, col)]) label = Some col.
Proof.
  unfold has_label. induction cols as [|[l c] cols IH]; simpl.
  - rewrite String.eqb_refl. reflexivity.
  - destruct (String.eqb l label) eqn:E; simpl; [discriminate|]. exact IH.
Qed.

Lemma getitem_set_column_eq label col cols :
  getitem_cols (set_column label col cols) label = Some col.
Proof.
  unfold set_column. destruct (has_label label cols) eqn:E.
  - apply getitem_cols_map_set, E.
  - apply getitem_cols_app_fresh, E.
Qed.

Lemma getitem_set_column_ne label col cols l :
  l <> label ->
  getitem_cols (set_column label col cols) l = getitem_cols cols l.
Proof.
  intros Hne. unfold set_column. destruct (has_label label cols).
  - induction cols as [|[l0 c0] cols IH]; simpl; [reflexivity|].
    destruct (String.eqb l0 label) eqn:E; simpl.
    + apply String.eqb_eq in E. subst l0.
      destruct (String.eqb label l) eqn:E'.
      * apply String.eqb_eq in E'. congruence.
      * exact IH.
    + destruct (String.eqb l0 l); [reflexivity | exact IH].
  - induction cols as [|[l0 c0] cols IH]; simpl.
    + destruct (String.eqb label l) eqn:E'; [|reflexivity].
      apply String.eqb_eq in E'. congruence.
    + destruct (String.eqb l0 l); [reflexivity | exact IH].
Qed.

Lemma others_set_column label col cols :
  others label (set_column label col cols) = others label cols.
Proof.
  unfold set_column, others. destruct (has_label label cols).
  - induction cols as [|[l0 c0] cols IH]; simpl; [reflexivity|].
    destruct (String.eqb l0 label) eqn:E; simpl; rewrite E; simpl.
    + exact IH.
    + f_equal. exact IH.
  - rewrite List.filter_app. simpl. rewrite String.eqb_refl. simpl.
    apply app_nil_r.
Qed.

Lemma sum_repeat (v : Q) (n : nat) :
  Numpy.sum (repeat v n) == inject_Z (Z.of_nat n) * v.
Proof.
  induction n as [|n IH].
  - simpl. ring.
  - change (Numpy.sum (repeat v (S n))) with (v + Numpy.sum (repeat v n)).
    rewrite IH, Nat2Z.inj_succ. unfold Z.succ. rewrite inject_Z_plus. ring.
Qed.

(** C10: [weight_by_likelihood] returns the reference it was given; in
    the store only the object behind that reference changes; the object
    keeps its rows, its 'weight' column is set (to 1.0 in every row), and
    every other column is what it was, at the place it was. *)
Theorem weight_by_likelihood_in_place (h : store) (parameters : ref) (df : DataFrame) :
  h !! parameters = Some df ->
  exists (h' : store) (df' : DataFrame),
    weight_by_likelihood parameters h = Some (parameters, h')
    /\ h' !! parameters = Some df'
    /\ (forall q : ref, q <> parameters -> h' !! q = h !! q)
    /\ nrows df' = nrows df
    /\ getitem df' "weight" = Some (repeat 1.0 (nrows df))
    /\ (forall l, l <> "weight"%string -> getitem df' l = getitem df l)
    /\ others "weight" (columns df') = others "weight" (columns df).
Proof.
  intros Hp. unfold weight_by_likelihood. rewrite Hp.
  eexists _, _. split; [reflexivity|].
  split; [apply lookup_insert_eq|].
  split; [intros q Hq; apply lookup_insert_ne; congruence|].
  split; [reflexivity|].
  split; [apply getitem_set_column_eq|].
  split; [intros l Hl; apply getitem_set_column_ne, Hl|].
  apply others_set_column.
Qed.

Lemma weight_by_likelihood_in_place_witness :
  let df := DataFrame_ones 3 ["alpha"; "weight"; "Omega_m"]%string in
  exists (h' : store) (df' : DataFrame),
    weight_by_likelihood 7%nat {[ 7%nat := df ]} = Some (7%nat, h')
    /\ h' !! 7%nat = Some df'
    /\ (forall q : ref, q <> 7%nat -> h' !! q = ({[ 7%nat := df ]} : store) !! q)
    /\ nrows df' = nrows df
    /\ getitem df' "weight" = Some (repeat 1.0 (nrows df))
    /\ (forall l, l <> "weight"%string -> getitem df' l = getitem df l)
    /\ others "weight" (columns df') = others "weight" (columns df).
Proof.
  intros df.
  apply (weight_by_likelihood_in_place {[ 7%nat := df ]} 7%nat df).
  reflexivity.
Defined.

(** C4, as stated, fails: on a frame of two candidates the weights that
    [weight_by_likelihood] sets sum to 2, not to 1. *)
Lemma weights_sum_not_one :
  exists (h' : store) (df' : DataFrame) (w : Numpy.array),
    weight_by_likelihood 0%nat {[ 0%nat := DataFrame_ones 2 ["Omega_m"]%string ]}
      = Some (0%nat, h')
    /\ h' !! 0%nat = Some df'
    /\ (0 < nrows df')%nat
    /\ weights df' = Some w
    /\ Numpy.sum w == 2
    /\ ~ Numpy.sum w == 1.
Proof.
  eexists _, _, _. split; [reflexivity|].
  split; [apply lookup_insert_eq|].
  split; [simpl; lia|].
  split; [reflexivity|].
  split; vm_compute; [reflexivity | discriminate].
Qed.

(** C4, amended: the weights set by [weight_by_likelihood] are not
    normalised; each is 1.0, so they sum to the number of candidates. *)
Theorem weights_sum_to_count (h : store) (parameters : ref) (df : DataFrame) :
  h !! parameters = Some df ->
  exists (h' : store) (df' : DataFrame) (w : Numpy.array),
    weight_by_likelihood parameters h = Some (parameters, h')
    /\ h' !! parameters = Some df'
    /\ weights df' = Some w
    /\ w = repeat 1.0 (nrows df)
    /\ Numpy.sum w == inject_Z (Z.of_nat (nrows df)).
Proof.
  intros Hp. unfold weight_by_likelihood. rewrite Hp.
  eexists _, _, _. split; [reflexivity|].
  split; [apply lookup_insert_eq|].
  split; [apply getitem_set_column_eq|].
  split; [reflexivity|].
  unfold likelihood. rewrite sum_repeat. Lqa.lra.
Qed.

Lemma weights_sum_to_count_witness :
  exists (h' : store) (df' : DataFrame) (w : Numpy.array),
    weight_by_likelihood 0%nat {[ 0%nat := DataFrame_ones 10 ["Omega_m"]%string ]}
      = Some (0%nat, h')
    /\ h' !! 0%nat = Some df'
    /\ weights df' = Some w
    /\ w = repeat 1.0 10
    /\ Numpy.sum w == inject_Z (Z.of_nat 10).
Proof.
  apply (weights_sum_to_count
           {[ 0%nat := DataFrame_ones 10 ["Omega_m"]%string ]} 0%nat
           (DataFrame_ones 10 ["Omega_m"]%string)).
  reflexivity.
Defined.

(** ** The simple Monte Carlo loop *)

Import Sampler.

Lemma repeat_as_map {A} (v : A) n k : repeat v n = map (fun _ => v) (seq k n).
Proof.
  revert k. induction n as [|n IH]; intros k; simpl; [done|]. by rewrite <- IH.
Qed.

Lemma map_seq_from {A} (t : nat -> A) p n :
  map t (seq p n) = map (fun i => t (p + i)%nat) (seq 0 n).
Proof.
  revert p. induction n as [|n IH]; intros p; simpl; [done|].
  rewrite Nat.add_0_r. f_equal.
  rewrite IH, <- seq_shift, map_map.
  apply map_ext. intros i. f_equal. lia.
Qed.

Lemma array_as_map (a : Numpy.array) n :
  length a = n -> a = map (fun i => nth i a 0) (seq 0 n).
Proof.
  revert n. induction a as [|x a IH]; intros n Hn; subst n; simpl; [done|].
  f_equal. rewrite <- seq_shift, map_map. simpl. by apply IH.
Qed.

Lemma zip_with_map {A B C D} (f : B -> C -> D) (g : A -> B) (h : A -> C) l :
  zip_with f (map g l) (map h l) = map (fun i => f (g i) (h i)) l.
Proof. induction l as [|i l IH]; simpl; [done|]. by rewrite IH. Qed.

Lemma sum_cons x a : Numpy.sum (x :: a) = x + Numpy.sum a.
Proof. reflexivity. Qed.

Lemma sum_app a b : Numpy.sum (a ++ b) == Numpy.sum a + Numpy.sum b.
Proof.
  induction a as [|x a IH].
  - change (Numpy.sum b == 0 + Numpy.sum b). ring.
  - rewrite <- app_comm_cons, !sum_cons, IH. ring.
Qed.

Lemma sum_map3 {A} (f g h : A -> Q) l :
  Numpy.sum (map f l ++ map g l ++ map h l ++ [])
  == Numpy.sum (map (fun i => f i + g i + h i) l).
Proof.
  rewrite !sum_app. change (Numpy.sum []) with 0.
  induction l as [|i l IH].
  - change (0 + (0 + (0 + 0)) == 0). ring.
  - cbn [map]. rewrite !sum_cons, <- IH. ring.
Qed.

(** Equal arrays, built by the same maps over the same indices *)
Ltac same_arrays :=
  repeat match goal with
  | |- map _ ?l = map _ ?l => apply map_ext; intro
  | |- @eq nat _ _ => lia
  | |- _ => progress f_equal
  end.

(** On floats, [LogGaussian] is [log_gaussian]. *)
Lemma LogGaussian_scalar x mu sig :
  LogGaussian (Scalar x) (Scalar mu) (Scalar sig) = Some (Scalar (log_gaussian x mu sig)).
Proof. reflexivity. Qed.

Section Iteration.

Variable nSN : nat.
Variables mu mb_obs x1_obs c_obs : Numpy.array.
Hypothesis Hmu : length mu = nSN.
Hypothesis Hmb : length mb_obs = nSN.
Hypothesis Hx1 : length x1_obs = nSN.
Hypothesis Hc : length c_obs = nSN.

(** One pass through the body of the loop, evaluated *)
Lemma iteration_run (s : state) :
  iteration nSN (Series mu) (Series mb_obs) (Series x1_obs) (Series c_obs) s
  = Some (after_iteration nSN mu mb_obs x1_obs c_obs s).
Proof.
  remember (after_iteration nSN mu mb_obs x1_obs c_obs s) as target eqn:Ht.
  unfold iteration.
  cbn [Numpy.norm_rvs Numpy.norm_rvs_size].
  unfold setitem_array, setitem_scalar, DataFrame_ones.
  unfold Numpy.variates, Numpy.advance, Numpy.ones.
  cbn [Numpy.tape Numpy.pos nrows columns].
  rewrite !(map_seq_from (Numpy.tape (random s))).
  rewrite !(repeat_as_map _ nSN 0%nat).
  rewrite (array_as_map mu nSN Hmu), (array_as_map mb_obs nSN Hmb),
    (array_as_map x1_obs nSN Hx1), (array_as_map c_obs nSN Hc).
  rewrite !decide_True by (by rewrite length_map, length_seq).
  cbn -[Qpower seq].
  repeat (unfold Numpy.elementwise;
          rewrite decide_True by (by rewrite !length_map, ?length_seq);
          cbn -[Qpower seq]; rewrite ?zip_with_map, ?map_map).
  rewrite !length_map, Nat.eqb_refl.
  cbn -[Qpower seq].
  subst target.
  unfold after_iteration, chain_entry, drawn_frame, candidate_likelihood,
    draws_per_candidate.
  rewrite !(repeat_as_map _ nSN 0%nat).
  unfold likelihood_mobs_at, likelihood_x1_at, likelihood_c_at, mb_true_at,
    log_gaussian, drawn_alpha, drawn_beta, drawn_MB, drawn_sigma_int,
    drawn_Omega_m, drawn_x1_true, drawn_c_true, variate, Numpy.advance, Numpy.sum.
  same_arrays.
Qed.

Lemma advance_0 st : Numpy.advance 0 st = st.
Proof. destruct st as [t p]. unfold Numpy.advance. simpl. f_equal. lia. Qed.

Lemma advance_advance a b st :
  Numpy.advance a (Numpy.advance b st) = Numpy.advance (b + a) st.
Proof. unfold Numpy.advance. simpl. f_equal. lia. Qed.

(** The whole loop, evaluated: one chain entry per candidate, and the
    random state moved on by the variates taken *)
Lemma loop_run (N : nat) (s : state) :
  exists s',
    loop nSN (Series mu) (Series mb_obs) (Series x1_obs) (Series c_obs) N s = Some s'
    /\ schain s' =
       schain s ++
       map (fun k => chain_entry nSN
                       (Numpy.advance (k * draws_per_candidate nSN) (random s)))
           (seq 0 N)
    /\ random s' = Numpy.advance (N * draws_per_candidate nSN) (random s)
    /\ likelihood s' =
       match N with
       | O => likelihood s
       | S n => Some (candidate_likelihood nSN mu mb_obs x1_obs c_obs
                        (Numpy.advance (n * draws_per_candidate nSN) (random s)))
       end.
Proof.
  revert s. induction N as [|N IH]; intros s.
  - exists s. simpl. rewrite app_nil_r, advance_0. done.
  - cbn [loop]. rewrite iteration_run. cbn [mbind option_bind].
    destruct (IH (after_iteration nSN mu mb_obs x1_obs c_obs s))
      as (s' & Hrun & Hchain & Hrand & Hlik).
    exists s'. split; [exact Hrun|].
    cbn [after_iteration schain random] in Hchain, Hrand, Hlik.
    split; [|split].
    + rewrite Hchain, <- app_assoc. f_equal.
      cbn [seq map app]. rewrite advance_0. f_equal.
      rewrite <- seq_shift, map_map. apply map_ext. intros k.
      rewrite advance_advance. do 2 f_equal; lia.
    + rewrite Hrand, advance_advance. f_equal; lia.
    + rewrite Hlik. destruct N as [|n].
      * cbn [likelihood]. by rewrite advance_0.
      * rewrite advance_advance. do 3 f_equal; lia.
Qed.

End Iteration.

(** C3, amended: the value the loop computes for a candidate is the sum,
    over the objects, of three terms [-0.5 (obs - true)^2 / sig^2], one
    for each of mb, x1 and c, with
    [mb_true = MB - alpha * x1_true + beta * c_true + mu]; nothing else
    is added: no normalising constant and no log-prior term. *)
Theorem likelihood_is_sum_of_log_gaussians
    (nSN : nat) (mu mb_obs x1_obs c_obs : Numpy.array) (s : state) :
  length mu = nSN -> length mb_obs = nSN ->
  length x1_obs = nSN -> length c_obs = nSN ->
  ~ drawn_sigma_int (random s) == 0 ->
  exists (s' : state) (L : Q),
    iteration nSN (Series mu) (Series mb_obs) (Series x1_obs) (Series c_obs) s
      = Some s'
    /\ likelihood s' = Some L
    /\ L == Numpy.sum
              (map (fun i =>
                      log_gaussian (nth i mb_obs 0)
                        (drawn_MB (random s)
                         - drawn_alpha (random s) * drawn_x1_true (random s) i
                         + drawn_beta (random s) * drawn_c_true nSN (random s) i
                         + nth i mu 0)
                        (drawn_sigma_int (random s) ^ 2)
                      + log_gaussian (nth i x1_obs 0)
                          (drawn_x1_true (random s) i) (0.5 ^ 2)
                      + log_gaussian (nth i c_obs 0)
                          (drawn_c_true nSN (random s) i) (0.5 ^ 2))
                   (seq 0 nSN)).
Proof.
  intros Hmu Hmb Hx1 Hc _.
  eexists _, _. split; [by apply iteration_run|].
  split; [reflexivity|].
  unfold candidate_likelihood. rewrite sum_map3. reflexivity.
Qed.

Lemma likelihood_is_sum_of_log_gaussians_witness :
  exists (s' : state) (L : Q),
    iteration 1 (Series [43]) (Series [44]) (Series [0.5]) (Series [0.25])
      (Inputs.start Inputs.state0) = Some s'
    /\ likelihood s' = Some L
    /\ L == Numpy.sum
              (map (fun i =>
                      log_gaussian (nth i [44] 0)
                        (drawn_MB Inputs.state0
                         - drawn_alpha Inputs.state0 * drawn_x1_true Inputs.state0 i
                         + drawn_beta Inputs.state0 * drawn_c_true 1 Inputs.state0 i
                         + nth i [43] 0)
                        (drawn_sigma_int Inputs.state0 ^ 2)
                      + log_gaussian (nth i [0.5] 0)
                          (drawn_x1_true Inputs.state0 i) (0.5 ^ 2)
                      + log_gaussian (nth i [0.25] 0)
                          (drawn_c_true 1 Inputs.state0 i) (0.5 ^ 2))
                   (seq 0 1)).
Proof.
  apply (likelihood_is_sum_of_log_gaussians 1 [43] [44] [0.5] [0.25]
           (Inputs.start Inputs.state0)); try reflexivity.
  vm_compute. discriminate.
Defined.

Lemma log_normal_at_mean (x sigma : R) :
  Claimed.log_normal x x sigma = (- ln (sigma * sqrt (2 * PI)))%R.
Proof.
  unfold Claimed.log_normal, Rdiv, Rsqr.
  replace (x - x)%R with 0%R by ring. ring.
Qed.

Lemma log_normal_unit_step :
  (Claimed.log_normal 1 0 1 = Claimed.log_normal 0 0 1 - 1 / 2)%R.
Proof. unfold Claimed.log_normal, Rsqr. Lra.lra. Qed.

Lemma Q2R_integer (q : Q) (z : Z) : q == inject_Z z -> Q2R q = IZR z.
Proof.
  intros H. rewrite (Qeq_eqR _ _ H). unfold Q2R, inject_Z. simpl.
  rewrite Rinv_1. ring.
Qed.

(** C3, as stated, fails.  Take one object and two candidates whose data
    equal their latents, with [x1_true] 0 in the first and 1 in the
    second.  The loop computes 0 for both.  The claimed sum of normal
    log-densities plus log-prior differs between the two by 1/2, whatever
    the three observation widths and the prior of [c_true] are: it cannot
    equal what the loop computes at both. *)
Lemma log_likelihood_not_as_claimed :
  exists LA LB : Q,
    likelihood <$> iteration 1 (Series [0]) (Series [0]) (Series [0]) (Series [0])
                     (Inputs.start Inputs.state_A) = Some (Some LA)
    /\ likelihood <$> iteration 1 (Series [0]) (Series [0]) (Series [1]) (Series [0])
                        (Inputs.start Inputs.state_B) = Some (Some LB)
    /\ ~ exists (sigma_mb_obs sigma_x1_obs sigma_c_obs : R) (log_prior_c : R -> R),
           Q2R LA = Claimed.log_likelihood sigma_mb_obs sigma_x1_obs sigma_c_obs
                      log_prior_c
                      (Claimed.objects 1 [0] [0] [0] [0] Inputs.state_A)
           /\ Q2R LB = Claimed.log_likelihood sigma_mb_obs sigma_x1_obs sigma_c_obs
                         log_prior_c
                         (Claimed.objects 1 [0] [0] [1] [0] Inputs.state_B).
Proof.
  eexists _, _. split; [vm_compute; reflexivity|].
  split; [vm_compute; reflexivity|].
  intros (smb & sx1 & sc & lp & HA & HB).
  unfold Claimed.log_likelihood, Claimed.objects, Claimed.total in HA, HB.
  cbn [map seq fold_right Claimed.object_at Claimed.mb_obs Claimed.x1_obs
       Claimed.c_obs Claimed.mb_true Claimed.x1_true Claimed.c_true nth] in HA, HB.
  repeat match type of HA with
         | context [Q2R ?q] =>
             rewrite (Q2R_integer q 0) in HA by (vm_compute; reflexivity)
         end.
  repeat match type of HB with
         | context [Q2R ?q] =>
             first [ rewrite (Q2R_integer q 0) in HB by (vm_compute; reflexivity)
                   | rewrite (Q2R_integer q 1) in HB by (vm_compute; reflexivity) ]
         end.
  rewrite !log_normal_at_mean in HA, HB.
  rewrite log_normal_unit_step in HB.
  Lra.lra.
Qed.



(** C2, evaluated on ten objects and the two candidates of the cell: the
    first candidate's value of [likelihood] differs from the second's,
    and after the loop only the second is bound; the chain has one frame
    per candidate, and no frame has a column for a weight. *)
Theorem sampling_cell_keeps_no_log_weight :
  exists (s1 s2 : state) (L1 L2 : Q),
    sampling_loop nSN (distance_moduli Inputs.distmod 0.3 Inputs.z)
      Inputs.mb_obs Inputs.x1_obs Inputs.c_obs 1 None Inputs.state0 = Some s1
    /\ likelihood s1 = Some L1
    /\ sampling_cell Inputs.distmod 0.3 Inputs.z Inputs.mb_obs Inputs.x1_obs
         Inputs.c_obs None Inputs.state0 = Some s2
    /\ likelihood s2 = Some L2
    /\ ~ L1 == L2
    /\ length (schain s2) = N
    /\ map labels (schain s2)
       = [ [ "mb_true"; "alpha"; "beta"; "MB"; "Omega_m"; "sigma_int" ];
           [ "mb_true"; "alpha"; "beta"; "MB"; "Omega_m"; "sigma_int" ] ]%string
    /\ Forall (fun df => getitem df "weight" = None
                         /\ getitem df "likelihood" = None) (schain s2).
Proof.
  eexists _, _, _, _. split; [vm_compute; reflexivity|].
  split; [reflexivity|].
  split; [vm_compute; reflexivity|].
  split; [reflexivity|].
  split; [vm_compute; discriminate|].
  split; [reflexivity|].
  split; [reflexivity|].
  repeat constructor.
Qed.

(** ** The cells that draw the population *)

Import Kernel Notebook.

Lemma length_variates n st : length (Numpy.variates n st) = n.
Proof. unfold Numpy.variates. by rewrite length_map, length_seq. Qed.
Lemma length_random_normal l sc n st :
  length (fst (Numpy.random_normal l sc n st)) = n.
Proof. simpl. by rewrite length_map, length_variates. Qed.
Lemma length_random_exponential sc n st :
  length (fst (Numpy.random_exponential sc n st)) = n.
Proof. simpl. by rewrite length_map, length_variates. Qed.
Lemma length_random_uniform l h n st :
  length (fst (Numpy.random_uniform l h n st)) = n.
Proof. simpl. by rewrite length_map, length_variates. Qed.
Lemma length_scalar_mul k a : length (Numpy.scalar_mul k a) = length a.
Proof. apply length_map. Qed.
Lemma length_scalar_sub k a : length (Numpy.scalar_sub k a) = length a.
Proof. apply length_map. Qed.
Lemma length_ones_like a : length (Numpy.ones_like a) = length a.
Proof. apply length_map. Qed.
Lemma length_zip_same {A B C} (f : A -> B -> C) a b n :
  length a = n -> length b = n -> length (zip_with f a b) = n.
Proof. intros. rewrite length_zip_with. lia. Qed.

Ltac lengths :=
  repeat first [ rewrite length_random_normal | rewrite length_random_exponential
               | rewrite length_random_uniform | rewrite length_scalar_mul
               | rewrite length_scalar_sub | rewrite length_ones_like
               | rewrite length_map
               | rewrite (length_zip_same _ _ _ 250%nat) ];
  try reflexivity.

Lemma elementwise_eq f (a b : Numpy.array) :
  length a = length b -> Numpy.elementwise f a b = Some (zip_with f a b).
Proof. intros H. unfold Numpy.elementwise. rewrite decide_True; done. Qed.

Ltac lookup_ns :=
  repeat first [ rewrite lookup_insert_eq
               | rewrite lookup_insert_ne by discriminate
               | rewrite lookup_empty ].

Ltac step :=
  cbv [mbind py_bind mret py_ret load store sample shaped raise
       load_array load_float load_size globals random];
  cbn [snd Numpy.random_normal Numpy.random_exponential Numpy.random_uniform];
  change (Z.to_nat 250) with 250%nat;
  change (250 <? 0)%Z with false;
  change (String.eqb "astropy.cosmology.FlatLambdaCDM" Astropy.class_name)
    with true;
  change (Astropy.Om0_accepted 0.3) with true;
  lookup_ns;
  rewrite ?elementwise_eq by lengths.

Lemma run_cell_ok c k : syntax_error (source c) = None -> run_cell c k = body c k.
Proof. intros H. unfold run_cell. by rewrite H. Qed.

(** In [1] to In [8], evaluated *)
Lemma run_generator (distmod : Q -> Q -> Q -> Q) (t : nat -> Q) :
  run_all (firstn 8 (generator_cells distmod)) (fresh t)
  = (Completed, generated_kernel distmod t).
Proof.
  unfold run_all, generator_cells. cbn [firstn run_from]. unfold fresh.
  repeat (rewrite run_cell_ok by (vm_compute; reflexivity);
          cbn [body cell_1 cell_2 cell_3 cell_4 cell_5 cell_6 cell_7 cell_8];
          repeat (progress step)).
  reflexivity.
Qed.

Lemma run_from_halts n cells c rest k k' k'' e :
  run_from n cells k = (Completed, k') ->
  run_cell c k' = (Raise e, k'') ->
  run_from n (cells ++ c :: rest) k = (Halted (n + length cells) e, k'').
Proof.
  revert n k. induction cells as [|c0 cells IH]; intros n k Hrun Hc.
  - simpl in Hrun. injection Hrun as <-. simpl. rewrite Hc.
    by rewrite Nat.add_0_r.
  - simpl in *. destruct (run_cell c0 k) as [[[]|e0] k0]; [|discriminate].
    rewrite (IH _ _ Hrun Hc). do 2 f_equal. lia.
Qed.

(** The whole notebook, whatever follows In [9] *)
Lemma run_notebook distmod t rest :
  run_all (generator_cells distmod ++ rest) (fresh t)
  = (Halted 9 (SyntaxError 4), generated_kernel distmod t).
Proof.
  change (generator_cells distmod ++ rest)
    with (firstn 8 (generator_cells distmod) ++ cell_9 :: rest).
  unfold run_all.
  rewrite (run_from_halts 1 (firstn 8 (generator_cells distmod)) cell_9 rest
             (fresh t) (generated_kernel distmod t) (generated_kernel distmod t)
             (SyntaxError 4)).
  - reflexivity.
  - apply run_generator.
  - reflexivity.
Qed.

(** C8: run in order, the cells stop at In [9] with a syntax error at its
    line 4, the line [mb_true = ]; the eight cells before it complete;
    whatever cells follow are not run, and the kernel holds no [mb_true]
    and none of the names the inference cells would bind. *)
Theorem run_all_halts_at_cell_9
    (distmod : Q -> Q -> Q -> Q) (t : nat -> Q) (rest : list cell) :
  exists k : kernel,
    run_all (generator_cells distmod ++ rest) (fresh t)
      = (Halted 9 (SyntaxError 4), k)
    /\ run_all (firstn 8 (generator_cells distmod)) (fresh t) = (Completed, k)
    /\ Forall (fun name => globals k !! name = None)
         [ "mb_true"; "mb_true_mean"; "mb_true_var"; "mb_true_dist";
           "datafr"; "schain"; "likelihood"; "weight_by_likelihood" ]%string.
Proof.
  exists (generated_kernel distmod t).
  split; [apply run_notebook|]. split; [apply run_generator|].
  cbn [globals generated_kernel]. unfold generated.
  repeat constructor; lookup_ns; reflexivity.
Qed.

Lemma Om0_accepted_true (Om0 : Q) : 0 <= Om0 -> Astropy.Om0_accepted Om0 = true.
Proof. intros H. by apply Qle_bool_iff. Qed.

Lemma Om0_accepted_false (Om0 : Q) : Om0 < 0 -> Astropy.Om0_accepted Om0 = false.
Proof.
  intros H. unfold Astropy.Om0_accepted.
  destruct (Qle_bool 0 Om0) eqn:E; [|reflexivity].
  apply Qle_bool_iff in E. Lqa.lra.
Qed.

(** C7, amended: the distance moduli of In [8] are evaluated, at positive
    redshifts, for every [Omega_m] that is not negative, one above 1
    included: the cell binds [cosmo] and [mu_dist].  For a negative
    [Omega_m] the cell fails with the ValueError of astropy's constructor,
    and leaves the kernel as it found it. *)
Theorem distance_moduli_fail_for_negative_Omega_m_only
    (distmod : Q -> Q -> Q -> Q) (k : kernel) (Om0 : Q) (z : Numpy.array) :
  globals k !! "FlatLambdaCDM" = Some (VClass "astropy.cosmology.FlatLambdaCDM") ->
  globals k !! "Omega_m" = Some (VFloat Om0) ->
  globals k !! "z_dist" = Some (VArray z) ->
  Forall (fun zi => 0 < zi) z ->
  (Om0 < 0 -> run_cell (cell_8 distmod) k = (Raise ValueError, k))
  /\ (0 <= Om0 ->
      run_cell (cell_8 distmod) k
      = (Ok tt,
         {| globals := <["mu_dist" := VArray (map (distmod 70 Om0) z)]>
                         (<["cosmo" := VCosmology 70 Om0]> (globals k));
            random := random k |})).
Proof.
  intros Hc HOm Hz _.
  rewrite run_cell_ok by (vm_compute; reflexivity).
  cbn [body cell_8].
  cbv [mbind py_bind mret py_ret load store raise load_array load_float].
  rewrite Hc, HOm.
  change (String.eqb "astropy.cosmology.FlatLambdaCDM" Astropy.class_name)
    with true.
  split; intros H.
  - by rewrite Om0_accepted_false.
  - rewrite Om0_accepted_true by exact H.
    cbn [globals random]. lookup_ns.
    cbn [globals random]. lookup_ns. rewrite Hz. reflexivity.
Qed.

Lemma distance_moduli_fail_for_negative_Omega_m_only_witness :
  (2 < 0 ->
   run_cell (cell_8 Inputs.distmod) MoreInputs.kernel_Omega_m_2
   = (Raise ValueError, MoreInputs.kernel_Omega_m_2))
  /\ (0 <= 2 ->
      run_cell (cell_8 Inputs.distmod) MoreInputs.kernel_Omega_m_2
      = (Ok tt,
         {| globals :=
              <["mu_dist" := VArray (map (Inputs.distmod 70 2) [0.2; 0.5; 1.0])]>
                (<["cosmo" := VCosmology 70 2]>
                   (globals MoreInputs.kernel_Omega_m_2));
            Kernel.random := Kernel.random MoreInputs.kernel_Omega_m_2 |})).
Proof.
  apply (distance_moduli_fail_for_negative_Omega_m_only Inputs.distmod
           MoreInputs.kernel_Omega_m_2 2 [0.2; 0.5; 1.0]);
    [reflexivity | reflexivity | reflexivity |].
  repeat constructor.
Defined.

(** C7, as stated, fails: with [Omega_m = 2], outside [0, 1], In [8]
    raises nothing and binds the distance moduli of the redshifts; and the
    Monte Carlo cell, which evaluates the distance moduli in the same way,
    runs to its end. *)
Lemma distance_moduli_evaluated_at_Omega_m_2 :
  ~ (0 <= 2 /\ 2 <= 1)
  /\ globals MoreInputs.kernel_Omega_m_2 !! "Omega_m" = Some (VFloat 2)
  /\ (exists k' : kernel,
        run_cell (cell_8 Inputs.distmod) MoreInputs.kernel_Omega_m_2 = (Ok tt, k')
        /\ globals k' !! "cosmo" = Some (VCosmology 70 2)
        /\ globals k' !! "mu_dist"
           = Some (VArray (map (Inputs.distmod 70 2) [0.2; 0.5; 1.0])))
  /\ (exists s' : Sampler.state,
        Sampler.sampling_cell Inputs.distmod 2 Inputs.z Inputs.mb_obs
          Inputs.x1_obs Inputs.c_obs None Inputs.state0 = Some s'
        /\ length (Sampler.schain s') = Sampler.N).
Proof.
  split; [intros [_ H]; apply H; reflexivity|].
  split; [reflexivity|].
  split.
  - eexists. split; [vm_compute; reflexivity|]. split; reflexivity.
  - eexists. split; [vm_compute; reflexivity|]. reflexivity.
Qed.

Lemma variates_ext (t1 t2 : nat -> Q) p n :
  (forall i, (p <= i < p + n)%nat -> t1 i = t2 i) ->
  Numpy.variates n {| Numpy.tape := t1; Numpy.pos := p |}
  = Numpy.variates n {| Numpy.tape := t2; Numpy.pos := p |}.
Proof.
  intros H. unfold Numpy.variates. cbn [Numpy.tape Numpy.pos].
  apply map_ext_in. intros i Hi. apply in_seq in Hi. apply H. lia.
Qed.

(** C9: the population depends on nothing but the random state.  Two
    runs of the cells whose random states agree on the 1500 variates the
    cells take (as they do after the same seed) end in the same way and
    bind the same names to the same values. *)
Theorem generator_deterministic
    (distmod : Q -> Q -> Q -> Q) (t1 t2 : nat -> Q) (rest1 rest2 : list cell) :
  (forall i, (i < 1500)%nat -> t1 i = t2 i) ->
  fst (run_all (generator_cells distmod ++ rest1) (fresh t1))
  = fst (run_all (generator_cells distmod ++ rest2) (fresh t2))
  /\ globals (snd (run_all (generator_cells distmod ++ rest1) (fresh t1)))
     = globals (snd (run_all (generator_cells distmod ++ rest2) (fresh t2))).
Proof.
  intros H. rewrite !run_notebook. split; [reflexivity|].
  cbn [snd globals generated_kernel].
  unfold generated, mu_dist, z_dist, c_obs_dist, c_obs_unc, c_true_dist,
    c_true_exp, c_true_norm, x1_obs_dist, x1_obs_unc, x1_true_dist, state_after.
  cbn [fst Numpy.random_normal Numpy.random_exponential Numpy.random_uniform].
  rewrite !(variates_ext t1 t2) by (intros i Hi; apply H; lia).
  reflexivity.
Qed.

Lemma lookup_map_seq {A} (f : nat -> A) n i :
  (i < n)%nat -> map f (seq 0 n) !! i = Some (f i).
Proof. intros H. by rewrite list_lookup_fmap, lookup_seq_lt. Qed.

(** C5, amended: for every one of the 250 objects, [x1_obs] and [c_obs]
    are the true value plus 0.5 times a standard normal variate.  The
    variate is the object's and the field's own: object [i] takes variate
    [250 + i] for [x1_obs] and variate [1000 + i] for [c_obs], while its
    true values are made of variates [i], [500 + i] and [750 + i].  No
    [mb_obs] is drawn. *)
Theorem observed_is_true_plus_noise
    (distmod : Q -> Q -> Q -> Q) (t : nat -> Q) (rest : list cell) :
  exists x1_true x1_obs c_true c_obs : Numpy.array,
    let g := globals (snd (run_all (generator_cells distmod ++ rest) (fresh t))) in
    g !! "x1_true_dist" = Some (VArray x1_true)
    /\ g !! "x1_obs_dist" = Some (VArray x1_obs)
    /\ g !! "c_true_dist" = Some (VArray c_true)
    /\ g !! "c_obs_dist" = Some (VArray c_obs)
    /\ forall i, (i < 250)%nat ->
         exists xt xo ct co : Q,
           x1_true !! i = Some xt /\ x1_obs !! i = Some xo
           /\ c_true !! i = Some ct /\ c_obs !! i = Some co
           /\ xo == xt + 0.5 * t (250 + i)%nat
           /\ co == ct + 0.5 * t (1000 + i)%nat
           /\ xt == t i
           /\ ct == 0.1 * t (500 + i)%nat + 0.1 * t (750 + i)%nat.
Proof.
  exists (x1_true_dist t), (x1_obs_dist t), (c_true_dist t), (c_obs_dist t).
  rewrite run_notebook. cbn [snd globals generated_kernel]. unfold generated.
  repeat (split; [lookup_ns; reflexivity|]).
  intros i Hi.
  unfold c_obs_dist, c_obs_unc, c_true_dist, c_true_exp, c_true_norm,
    x1_obs_dist, x1_obs_unc, x1_true_dist, state_after,
    Numpy.scalar_mul, Numpy.ones_like.
  cbn [fst Numpy.random_normal Numpy.random_exponential Numpy.random_uniform].
  unfold Numpy.variates. cbn [Numpy.tape Numpy.pos].
  change (0 * 250)%nat with 0%nat.
  rewrite !map_map.
  repeat rewrite (map_seq_from _ (1 * 250)%nat).
  repeat rewrite (map_seq_from _ (2 * 250)%nat).
  repeat rewrite (map_seq_from _ (3 * 250)%nat).
  repeat rewrite (map_seq_from _ (4 * 250)%nat).
  repeat (rewrite ?zip_with_map, ?map_map).
  eexists _, _, _, _. unfold Numpy.array.
  rewrite !lookup_map_seq by exact Hi.
  repeat (split; [reflexivity|]).
  change (0 * 250 + i)%nat with i.
  change (1 * 250 + i)%nat with (250 + i)%nat.
  change (2 * 250 + i)%nat with (500 + i)%nat.
  change (3 * 250 + i)%nat with (750 + i)%nat.
  change (4 * 250 + i)%nat with (1000 + i)%nat.
  repeat split; try Lqa.lra; field.
Qed.

(** C5, as stated, fails for [mb]: the cells bind no observed and no true
    magnitude, so no record has an [mb_obs] equal to [mb_true] plus
    noise. *)
Lemma mb_obs_is_not_generated :
  Forall (fun name =>
            globals (snd (run_all (generator_cells Inputs.distmod)
                            (fresh Inputs.tape))) !! name = None)
    [ "mb_obs_dist"; "mb_obs_unc"; "mb_obs"; "mb_true_dist"; "mb_true" ]%string.
Proof.
  rewrite <- (app_nil_r (generator_cells Inputs.distmod)), run_notebook.
  cbn [snd globals generated_kernel]. unfold generated.
  repeat constructor; lookup_ns; reflexivity.
Qed.

Lemma generator_deterministic_witness :
  (forall i, (i < 1500)%nat -> Inputs.tape i = Inputs.tape_cut i)
  /\ fst (run_all (generator_cells Inputs.distmod ++ []) (fresh Inputs.tape))
     = fst (run_all (generator_cells Inputs.distmod ++ []) (fresh Inputs.tape_cut))
  /\ globals (snd (run_all (generator_cells Inputs.distmod ++ [])
                     (fresh Inputs.tape)))
     = globals (snd (run_all (generator_cells Inputs.distmod ++ [])
                       (fresh Inputs.tape_cut))).
Proof.
  assert (H : forall i, (i < 1500)%nat -> Inputs.tape i = Inputs.tape_cut i).
  { intros i Hi. unfold Inputs.tape_cut.
    destruct (Nat.ltb_spec i 1500); [reflexivity | lia]. }
  split; [exact H|].
  apply (generator_deterministic Inputs.distmod Inputs.tape Inputs.tape_cut [] []).
  exact H.
Defined.

(** C6, evaluated.  In the generator, In [9] stops at the line that was to
    assign [mb_true]; its two complete statements, run on their own, bind
    the mean and the variance and still no [mb_true].  In the loop,
    [mb_true] is [MB - alpha * x1_true + beta * c_true + mu] exactly, for
    a candidate whose [sigma_int] is not zero: no scatter is added. *)
Theorem mb_true_has_no_scatter :
  fst (run_all (generator_cells Inputs.distmod) (fresh Inputs.tape))
    = Halted 9 (SyntaxError 4)
  /\ globals (snd (run_all (generator_cells Inputs.distmod) (fresh Inputs.tape)))
       !! "mb_true" = None
  /\ (exists k : kernel,
        body (cell_9) (generated_kernel Inputs.distmod Inputs.tape) = (Ok tt, k)
        /\ globals k !! "mb_true_var" = Some (VFloat (0.15 ^ 2))
        /\ globals k !! "mb_true" = None)
  /\ (exists s : Sampler.state,
        Sampler.sampling_cell Inputs.distmod 0.3 Inputs.z Inputs.mb_obs
          Inputs.x1_obs Inputs.c_obs None Inputs.state0 = Some s
        /\ let st := Numpy.advance (Sampler.draws_per_candidate 10) Inputs.state0 in
           Sampler.mb_true s
           = Some (Sampler.Series
                     (map (fun i =>
                             Sampler.drawn_MB st
                             - Sampler.drawn_alpha st * Sampler.drawn_x1_true st i
                             + Sampler.drawn_beta st * Sampler.drawn_c_true 10 st i
                             + nth i (Sampler.entries
                                        (Sampler.distance_moduli Inputs.distmod
                                           0.3 Inputs.z)) 0)
                          (seq 0 10)))
           /\ ~ Sampler.drawn_sigma_int st == 0).
Proof.
  split; [vm_compute; reflexivity|].
  split; [vm_compute; reflexivity|].
  split.
  - eexists. split; [|split]; vm_compute; reflexivity.
  - eexists. split; [vm_compute; reflexivity|].
    split; [vm_compute; reflexivity | vm_compute; discriminate].
Qed.

(** * Further properties of the code *)

(** ** More on [LogGaussian] and the loop *)

Import Pandas Sampler.

Lemma log_gaussian_expand x mu sig :
  log_gaussian x mu sig == - (1 # 2) * ((x - mu) * (x - mu)) / (sig * sig).
Proof. unfold log_gaussian. simpl. unfold Qdiv. ring. Qed.

Lemma square_nonneg (d : Q) : 0 <= d * d.
Proof.
  destruct (Qlt_le_dec d 0) as [H|H].
  - assert (E : d * d == (- d) * (- d)) by ring.
    rewrite E. apply Qmult_le_0_compat; Lqa.lra.
  - by apply Qmult_le_0_compat.
Qed.

Lemma square_positive (sig : Q) : ~ sig == 0 -> 0 < sig * sig.
Proof.
  intros Hs. pose proof (square_nonneg sig) as H0.
  destruct (Qle_lt_or_eq _ _ H0) as [H|H]; [exact H|].
  exfalso. apply Hs. symmetry in H. by destruct (Qmult_integral _ _ H).
Qed.

Lemma log_gaussian_nonpos x mu sig : ~ sig == 0 -> log_gaussian x mu sig <= 0.
Proof.
  intros Hs. rewrite log_gaussian_expand.
  assert (Hb : 0 < sig * sig) by (by apply square_positive).
  apply Qle_shift_div_r; [exact Hb|].
  pose proof (square_nonneg (x - mu)). Lqa.lra.
Qed.

(** X1: on three float series of one length, with no scale equal to
    zero, no entry of the series [LogGaussian] returns is positive. *)
Theorem LogGaussian_entries_never_positive (x mu sig : Numpy.array) :
  length x = length mu -> length sig = length mu ->
  Forall (fun s => ~ s == 0) sig ->
  exists r : Numpy.array,
    LogGaussian (Series x) (Series mu) (Series sig) = Some (Series r)
    /\ length r = length mu
    /\ Forall (fun v => v <= 0) r.
Proof.
  intros H1 H2 Hs. unfold LogGaussian. cbn [binop].
  rewrite elementwise_eq by exact H1.
  cbn -[Qpower]. rewrite !map_map.
  rewrite elementwise_eq by (rewrite !length_map, length_zip_with; lia).
  cbn -[Qpower]. eexists. split; [reflexivity|]. split.
  - rewrite length_zip_with, !length_map, length_zip_with. lia.
  - apply Forall_lookup. intros i v Hv. unfold Numpy.array in *.
    rewrite lookup_zip_with, !list_lookup_fmap, lookup_zip_with in Hv.
    destruct (x !! i) as [a|]; [|discriminate].
    destruct (mu !! i) as [b|]; [|discriminate].
    destruct (sig !! i) as [s|] eqn:Es; [|discriminate].
    injection Hv as <-.
    change (log_gaussian a b s <= 0).
    apply log_gaussian_nonpos.
    exact (proj1 (Forall_lookup _ _) Hs i s Es).
Qed.

Lemma LogGaussian_entries_never_positive_witness :
  exists r : Numpy.array,
    LogGaussian (Series [1; 2]) (Series [0; 4]) (Series [0.5; -3]) = Some (Series r)
    /\ length r = length [0; 4]
    /\ Forall (fun v => v <= 0) r.
Proof.
  apply (LogGaussian_entries_never_positive [1; 2] [0; 4] [0.5; -3]);
    [reflexivity | reflexivity |].
  repeat constructor; discriminate.
Defined.

(** X2: [LogGaussian] does not tell [x] from [mu], nor a scale from its
    opposite: a negative [sig] is taken like the positive one. *)
Theorem LogGaussian_symmetric (x mu sig : Q) :
  ~ sig == 0 ->
  exists v w : Q,
    LogGaussian (Scalar x) (Scalar mu) (Scalar sig) = Some (Scalar v)
    /\ LogGaussian (Scalar mu) (Scalar x) (Scalar (- sig)) = Some (Scalar w)
    /\ v == w.
Proof.
  intros _. exists (log_gaussian x mu sig), (log_gaussian mu x (- sig)).
  split; [reflexivity|]. split; [reflexivity|].
  rewrite !log_gaussian_expand.
  assert (E : - sig * - sig == sig * sig) by ring.
  unfold Qdiv. rewrite E. ring.
Qed.

Lemma LogGaussian_symmetric_witness :
  exists v w : Q,
    LogGaussian (Scalar 1) (Scalar 2) (Scalar 0.5) = Some (Scalar v)
    /\ LogGaussian (Scalar 2) (Scalar 1) (Scalar (- 0.5)) = Some (Scalar w)
    /\ v == w.
Proof. apply (LogGaussian_symmetric 1 2 0.5). discriminate. Defined.






Lemma sum_nonpos (l : list Q) : Forall (fun v => v <= 0) l -> Numpy.sum l <= 0.
Proof.
  induction 1 as [|v l Hv _ IH].
  - discriminate.
  - rewrite sum_cons. Lqa.lra.
Qed.

(** X5: the value the loop computes for a candidate is never positive
    (for a drawn [sigma_int] that is not zero). *)
Theorem candidate_likelihood_never_positive
    (nSN : nat) (mu mb_obs x1_obs c_obs : Numpy.array) (s : state) :
  length mu = nSN -> length mb_obs = nSN ->
  length x1_obs = nSN -> length c_obs = nSN ->
  ~ drawn_sigma_int (random s) == 0 ->
  exists (s' : state) (L : Q),
    iteration nSN (Series mu) (Series mb_obs) (Series x1_obs) (Series c_obs) s
      = Some s'
    /\ likelihood s' = Some L
    /\ L <= 0.
Proof.
  intros Hmu Hmb Hx1 Hc Hs.
  eexists _, _. split; [by apply iteration_run|]. split; [reflexivity|].
  unfold candidate_likelihood. apply sum_nonpos.
  rewrite !Forall_app, !Forall_forall. repeat split.
  - intros v Hv. apply list_elem_of_In, in_map_iff in Hv as (i & <- & _).
    apply log_gaussian_nonpos. simpl.
    pose proof (square_positive _ Hs). Lqa.lra.
  - intros v Hv. apply list_elem_of_In, in_map_iff in Hv as (i & <- & _).
    apply log_gaussian_nonpos. discriminate.
  - intros v Hv. apply list_elem_of_In, in_map_iff in Hv as (i & <- & _).
    apply log_gaussian_nonpos. discriminate.
  - intros v Hv. by apply elem_of_nil in Hv.
Qed.

Lemma candidate_likelihood_never_positive_witness :
  exists (s' : state) (L : Q),
    iteration 1 (Series [43]) (Series [44]) (Series [0.5]) (Series [0.25])
      (Inputs.start Inputs.state0) = Some s'
    /\ likelihood s' = Some L
    /\ L <= 0.
Proof.
  apply (candidate_likelihood_never_positive 1 [43] [44] [0.5] [0.25]
           (Inputs.start Inputs.state0)); try reflexivity.
  vm_compute. discriminate.
Defined.

(** X6: the value computed for a candidate, and its [mb_true], do not
    depend on the [Omega_m] drawn for it: two random states that differ
    in that one variate only give the same [likelihood] and [mb_true]. *)
Theorem likelihood_ignores_Omega_m
    (nSN : nat) (mu mb_obs x1_obs c_obs : Numpy.array) (s1 s2 : state) :
  length mu = nSN -> length mb_obs = nSN ->
  length x1_obs = nSN -> length c_obs = nSN ->
  Numpy.pos (random s1) = Numpy.pos (random s2) ->
  (forall j, j <> (Numpy.pos (random s1) + 4)%nat ->
             Numpy.tape (random s1) j = Numpy.tape (random s2) j) ->
  exists s1' s2' : state,
    iteration nSN (Series mu) (Series mb_obs) (Series x1_obs) (Series c_obs) s1
      = Some s1'
    /\ iteration nSN (Series mu) (Series mb_obs) (Series x1_obs) (Series c_obs) s2
       = Some s2'
    /\ likelihood s1' = likelihood s2'
    /\ mb_true s1' = mb_true s2'.
Proof.
  intros Hmu Hmb Hx1 Hc Hpos Htape.
  eexists _, _. split; [by apply iteration_run|]. split; [by apply iteration_run|].
  assert (Hv : forall j, j <> 4%nat ->
                 variate (random s1) j = variate (random s2) j).
  { intros j Hj. unfold variate. rewrite <- Hpos. apply Htape. lia. }
  cbn [after_iteration likelihood mb_true].
  unfold candidate_likelihood. split.
  - do 3 f_equal; [|f_equal; [|f_equal]]; apply map_ext; intros i;
      unfold likelihood_mobs_at, likelihood_x1_at, likelihood_c_at, mb_true_at,
        drawn_alpha, drawn_beta, drawn_MB, drawn_sigma_int, drawn_x1_true,
        drawn_c_true;
      rewrite ?(Hv 0%nat), ?(Hv 1%nat), ?(Hv 2%nat), ?(Hv 3%nat),
        ?(Hv (5 + i)%nat), ?(Hv (5 + (nSN + i))%nat) by lia; reflexivity.
  - do 2 f_equal. apply map_ext. intros i.
    unfold mb_true_at, drawn_alpha, drawn_beta, drawn_MB, drawn_x1_true,
      drawn_c_true.
    rewrite ?(Hv 0%nat), ?(Hv 1%nat), ?(Hv 2%nat),
      ?(Hv (5 + i)%nat), ?(Hv (5 + (nSN + i))%nat) by lia. reflexivity.
Qed.

Lemma likelihood_ignores_Omega_m_witness :
  exists s1' s2' : state,
    iteration 1 (Series [43]) (Series [44]) (Series [0.5]) (Series [0.25])
      (Inputs.start Inputs.state0) = Some s1'
    /\ iteration 1 (Series [43]) (Series [44]) (Series [0.5]) (Series [0.25])
         (Inputs.start {| Numpy.tape := MoreInputs.tape_other_Omega;
                          Numpy.pos := 0 |}) = Some s2'
    /\ likelihood s1' = likelihood s2'
    /\ mb_true s1' = mb_true s2'.
Proof.
  apply (likelihood_ignores_Omega_m 1 [43] [44] [0.5] [0.25]
           (Inputs.start Inputs.state0)
           (Inputs.start {| Numpy.tape := MoreInputs.tape_other_Omega;
                            Numpy.pos := 0 |})); try reflexivity.
  intros j Hj. simpl in *. unfold MoreInputs.tape_other_Omega.
  destruct (Nat.eqb_spec j 4); [lia | reflexivity].
Defined.

(** X7: whatever is drawn, every frame of the chain has [nSN] rows, an
    [mb_true] column of ones (the computed [mb_true] is not stored in the
    frame), and no column for the latents [x1_true] and [c_true]. *)
Theorem chain_never_holds_mb_true_or_latents
    (nSN : nat) (mu mb_obs x1_obs c_obs : Numpy.array)
    (N : nat) (datafr0 : option DataFrame) (st : Numpy.RandomState) :
  length mu = nSN -> length mb_obs = nSN ->
  length x1_obs = nSN -> length c_obs = nSN ->
  exists s' : state,
    sampling_loop nSN (Series mu) (Series mb_obs) (Series x1_obs) (Series c_obs)
      N datafr0 st = Some s'
    /\ Forall (fun df =>
                 nrows df = nSN
                 /\ getitem df "mb_true" = Some (repeat 1 nSN)
                 /\ getitem df "x1_true" = None
                 /\ getitem df "c_true" = None) (schain s').
Proof.
  intros Hmu Hmb Hx1 Hc. unfold sampling_loop.
  destruct (loop_run nSN mu mb_obs x1_obs c_obs Hmu Hmb Hx1 Hc N
              {| schain := []; datafr := datafr0; mb_true := None;
                 likelihood := None; random := st |})
    as (s' & Hrun & Hchain & _ & _).
  cbn [schain random app] in Hchain.
  exists s'. split; [exact Hrun|]. rewrite Hchain.
  apply Forall_forall. intros df Hdf.
  apply list_elem_of_In, in_map_iff in Hdf as (k & <- & _).
  repeat split; reflexivity.
Qed.

Lemma chain_never_holds_mb_true_or_latents_witness :
  exists s' : state,
    sampling_loop 2 (Series [43; 44]) (Series [44; 45]) (Series [0; 1])
      (Series [0; 0.1]) 3 None Inputs.state0 = Some s'
    /\ Forall (fun df =>
                 nrows df = 2%nat
                 /\ getitem df "mb_true" = Some (repeat 1 2)
                 /\ getitem df "x1_true" = None
                 /\ getitem df "c_true" = None) (schain s').
Proof.
  apply (chain_never_holds_mb_true_or_latents 2 [43; 44] [44; 45] [0; 1] [0; 0.1]
           3 None Inputs.state0); reflexivity.
Defined.

(** X8: [N] passes of the loop take [N * (5 + 2 * nSN)] variates from
    the random state, no more and no fewer. *)
Theorem loop_takes_a_fixed_number_of_variates
    (nSN : nat) (mu mb_obs x1_obs c_obs : Numpy.array)
    (N : nat) (datafr0 : option DataFrame) (st : Numpy.RandomState) :
  length mu = nSN -> length mb_obs = nSN ->
  length x1_obs = nSN -> length c_obs = nSN ->
  exists s' : state,
    sampling_loop nSN (Series mu) (Series mb_obs) (Series x1_obs) (Series c_obs)
      N datafr0 st = Some s'
    /\ Numpy.tape (random s') = Numpy.tape st
    /\ Numpy.pos (random s') = (Numpy.pos st + N * (5 + 2 * nSN))%nat.
Proof.
  intros Hmu Hmb Hx1 Hc. unfold sampling_loop.
  destruct (loop_run nSN mu mb_obs x1_obs c_obs Hmu Hmb Hx1 Hc N
              {| schain := []; datafr := datafr0; mb_true := None;
                 likelihood := None; random := st |})
    as (s' & Hrun & _ & Hrand & _).
  cbn [random] in Hrand.
  exists s'. split; [exact Hrun|]. rewrite Hrand.
  split; [reflexivity|]. unfold draws_per_candidate. cbn [Numpy.advance Numpy.pos].
  lia.
Qed.

Lemma loop_takes_a_fixed_number_of_variates_witness :
  exists s' : state,
    sampling_loop 2 (Series [43; 44]) (Series [44; 45]) (Series [0; 1])
      (Series [0; 0.1]) 3 None Inputs.state0 = Some s'
    /\ Numpy.tape (random s') = Numpy.tape Inputs.state0
    /\ Numpy.pos (random s') = (Numpy.pos Inputs.state0 + 3 * (5 + 2 * 2))%nat.
Proof.
  apply (loop_takes_a_fixed_number_of_variates 2 [43; 44] [44; 45] [0; 1] [0; 0.1]
           3 None Inputs.state0); reflexivity.
Defined.

(** X9: without a pass, the loop binds no [likelihood] and leaves the
    chain empty; after [N + 1] passes, [likelihood] is what one pass
    started at the last candidate's variates computes. *)
Theorem loop_keeps_the_last_likelihood_only
    (nSN : nat) (mu mb_obs x1_obs c_obs : Numpy.array)
    (N : nat) (datafr0 : option DataFrame) (st : Numpy.RandomState) :
  length mu = nSN -> length mb_obs = nSN ->
  length x1_obs = nSN -> length c_obs = nSN ->
  exists s0 s' s1 : state,
    sampling_loop nSN (Series mu) (Series mb_obs) (Series x1_obs) (Series c_obs)
      0 datafr0 st = Some s0
    /\ likelihood s0 = None /\ schain s0 = []
    /\ sampling_loop nSN (Series mu) (Series mb_obs) (Series x1_obs) (Series c_obs)
         (S N) datafr0 st = Some s'
    /\ iteration nSN (Series mu) (Series mb_obs) (Series x1_obs) (Series c_obs)
         (Inputs.start (Numpy.advance (N * (5 + (nSN + nSN))) st)) = Some s1
    /\ likelihood s' = likelihood s1.
Proof.
  intros Hmu Hmb Hx1 Hc. unfold sampling_loop.
  destruct (loop_run nSN mu mb_obs x1_obs c_obs Hmu Hmb Hx1 Hc (S N)
              {| schain := []; datafr := datafr0; mb_true := None;
                 likelihood := None; random := st |})
    as (s' & Hrun & _ & _ & Hlik).
  eexists _, s', _. split; [reflexivity|]. split; [reflexivity|].
  split; [reflexivity|]. split; [exact Hrun|].
  split; [by apply iteration_run|].
  rewrite Hlik. reflexivity.
Qed.

Lemma loop_keeps_the_last_likelihood_only_witness :
  exists s0 s' s1 : state,
    sampling_loop 2 (Series [43; 44]) (Series [44; 45]) (Series [0; 1])
      (Series [0; 0.1]) 0 None Inputs.state0 = Some s0
    /\ likelihood s0 = None /\ schain s0 = []
    /\ sampling_loop 2 (Series [43; 44]) (Series [44; 45]) (Series [0; 1])
         (Series [0; 0.1]) (S 2) None Inputs.state0 = Some s'
    /\ iteration 2 (Series [43; 44]) (Series [44; 45]) (Series [0; 1])
         (Series [0; 0.1])
         (Inputs.start (Numpy.advance (2 * (5 + (2 + 2))) Inputs.state0)) = Some s1
    /\ likelihood s' = likelihood s1.
Proof.
  apply (loop_keeps_the_last_likelihood_only 2 [43; 44] [44; 45] [0; 1] [0; 0.1]
           2 None Inputs.state0); reflexivity.
Defined.

(** X10: with no object, a pass gives the likelihood 0 and a frame with
    the eight columns and no row. *)
Theorem no_objects_give_likelihood_zero (s : state) :
  exists s' : state,
    iteration 0 (Series []) (Series []) (Series []) (Series []) s = Some s'
    /\ likelihood s' = Some 0
    /\ (exists df, datafr s' = Some df /\ nrows df = 0%nat
                   /\ labels df = par_labels).
Proof.
  eexists. split; [by apply iteration_run|].
  split; [reflexivity|]. eexists. split; [reflexivity|]. split; reflexivity.
Qed.

(** ** More on [weight_by_likelihood] *)

Import Pandas Inference.

Lemma has_label_map_set label (col : Numpy.array) cols :
  has_label label
    (map (fun c => if String.eqb (fst c) label then (fst c, col) else c) cols)
  = has_label label cols.
Proof.
  unfold has_label. induction cols as [|[l c] cols IH]; simpl; [done|].
  destruct (String.eqb l label) eqn:E; simpl; rewrite E; simpl; [done|exact IH].
Qed.

Lemma map_set_twice label (col : Numpy.array)
    (cols : list (string * Numpy.array)) :
  map (fun c => if String.eqb (fst c) label then (fst c, col) else c)
    (map (fun c => if String.eqb (fst c) label then (fst c, col) else c) cols)
  = map (fun c => if String.eqb (fst c) label then (fst c, col) else c) cols.
Proof.
  rewrite map_map. apply map_ext. intros [l c]. simpl.
  destruct (String.eqb l label) eqn:E; simpl; by rewrite E.
Qed.

Lemma map_set_absent label (col : Numpy.array)
    (cols : list (string * Numpy.array)) :
  has_label label cols = false ->
  map (fun c => if String.eqb (fst c) label then (fst c, col) else c) cols = cols.
Proof.
  unfold has_label. induction cols as [|[l c] cols IH]; simpl; [done|].
  destruct (String.eqb l label) eqn:E; simpl; [discriminate|].
  intros H. by rewrite IH.
Qed.

Lemma has_label_app label cols cols' :
  has_label label (cols ++ cols') = has_label label cols || has_label label cols'.
Proof. unfold has_label. apply existsb_app. Qed.

Lemma set_column_idempotent label col cols :
  set_column label col (set_column label col cols) = set_column label col cols.
Proof.
  unfold set_column at 2. destruct (has_label label cols) eqn:E.
  - unfold set_column. rewrite has_label_map_set, E. apply map_set_twice.
  - unfold set_column. rewrite has_label_app. unfold has_label at 2. simpl.
    rewrite String.eqb_refl, orb_true_r. rewrite map_app. simpl.
    rewrite String.eqb_refl, E. by rewrite map_set_absent.
Qed.

(** X11: calling [weight_by_likelihood] a second time changes nothing. *)
Theorem weight_by_likelihood_idempotent (h h' : store) (parameters : ref) :
  weight_by_likelihood parameters h = Some (parameters, h') ->
  weight_by_likelihood parameters h' = Some (parameters, h').
Proof.
  unfold weight_by_likelihood, store, ref in *.
  destruct (h !! parameters) as [df|] eqn:E; [|done].
  intros [= Hh]. subst h'. rewrite lookup_insert_eq. do 2 f_equal.
  rewrite insert_insert_eq. f_equal.
  unfold setitem_scalar. cbn [nrows columns]. f_equal.
  apply set_column_idempotent.
Qed.

Lemma weight_by_likelihood_idempotent_witness :
  weight_by_likelihood 0%nat MoreInputs.one_frame
  = Some (0%nat,
          <[0%nat := setitem_scalar (DataFrame_ones 2 par_labels) "weight" 1.0]>
            MoreInputs.one_frame)
  /\ weight_by_likelihood 0%nat
       (<[0%nat := setitem_scalar (DataFrame_ones 2 par_labels) "weight" 1.0]>
          MoreInputs.one_frame)
     = Some (0%nat,
             <[0%nat := setitem_scalar (DataFrame_ones 2 par_labels) "weight" 1.0]>
               MoreInputs.one_frame).
Proof.
  split; [reflexivity|].
  apply (weight_by_likelihood_idempotent MoreInputs.one_frame). reflexivity.
Defined.

Lemma has_label_labels label cols :
  has_label label cols = true <-> In label (map fst cols).
Proof.
  unfold has_label. rewrite existsb_exists, in_map_iff. split.
  - intros (c & Hc & E). apply String.eqb_eq in E. eauto.
  - intros (c & E & Hc). exists c. split; [done|]. by apply String.eqb_eq.
Qed.

Lemma labels_map_set label (col : Numpy.array)
    (cols : list (string * Numpy.array)) :
  map fst (map (fun c => if String.eqb (fst c) label then (fst c, col) else c) cols)
  = map fst cols.
Proof.
  rewrite map_map. apply map_ext. intros [l c]. simpl.
  by destruct (String.eqb l label).
Qed.

Lemma labels_set_column label (col : Numpy.array)
    (cols : list (string * Numpy.array)) :
  map fst (set_column label col cols)
  = if has_label label cols then map fst cols else map fst cols ++ [label].
Proof.
  unfold set_column. destruct (has_label label cols).
  - apply labels_map_set.
  - by rewrite map_app.
Qed.

(** X12: [weight_by_likelihood] leaves the column labels as they are when
    the frame has a weight column, and appends the label as the last one
    when it has none. *)
Theorem weight_column_replaced_or_appended
    (h : store) (parameters : ref) (df : DataFrame) :
  h !! parameters = Some df ->
  exists (h' : store) (df' : DataFrame),
    weight_by_likelihood parameters h = Some (parameters, h')
    /\ h' !! parameters = Some df'
    /\ (In "weight"%string (labels df) -> labels df' = labels df)
    /\ (~ In "weight"%string (labels df) ->
        labels df' = labels df ++ ["weight"%string]).
Proof.
  intros Hp. unfold weight_by_likelihood. rewrite Hp.
  eexists _, _. split; [reflexivity|]. split; [apply lookup_insert_eq|].
  unfold labels, setitem_scalar. cbn [columns]. rewrite labels_set_column.
  split; intros Hin.
  - apply has_label_labels in Hin. by rewrite Hin.
  - destruct (has_label "weight" (columns df)) eqn:E; [|reflexivity].
    apply has_label_labels in E. contradiction.
Qed.

Lemma weight_column_replaced_or_appended_witness :
  exists (h' : store) (df' : DataFrame),
    weight_by_likelihood 0%nat MoreInputs.one_frame = Some (0%nat, h')
    /\ h' !! 0%nat = Some df'
    /\ (In "weight"%string (labels (DataFrame_ones 2 par_labels)) ->
        labels df' = labels (DataFrame_ones 2 par_labels))
    /\ (~ In "weight"%string (labels (DataFrame_ones 2 par_labels)) ->
        labels df' = labels (DataFrame_ones 2 par_labels) ++ ["weight"%string]).
Proof.
  apply (weight_column_replaced_or_appended MoreInputs.one_frame 0%nat
           (DataFrame_ones 2 par_labels)).
  reflexivity.
Defined.

Lemma getitem_cols_absent label cols :
  ~ In label (map fst cols) -> getitem_cols cols label = None.
Proof.
  induction cols as [|[l c] cols IH]; simpl; [done|].
  intros H. destruct (String.eqb l label) eqn:E.
  - apply String.eqb_eq in E. exfalso. apply H. by left.
  - apply IH. intros Hin. apply H. by right.
Qed.

Lemma getitem_cols_present label cols :
  In label (map fst cols) -> is_Some (getitem_cols cols label).
Proof.
  induction cols as [|[l c] cols IH]; simpl; [done|].
  intros [H|H]; destruct (String.eqb l label) eqn:E; eauto.
  subst. by rewrite String.eqb_refl in E.
Qed.

(** X13: a frame with the columns of [par_labels] has no column [Omega],
    before and after [weight_by_likelihood], so that the last cell's
    [datafr['Omega']] is a KeyError; the column is called [Omega_m]. *)
Theorem Omega_is_not_a_column (h : store) (parameters : ref) (df : DataFrame) :
  h !! parameters = Some df ->
  labels df = Sampler.par_labels ->
  exists (h' : store) (df' : DataFrame),
    weight_by_likelihood parameters h = Some (parameters, h')
    /\ h' !! parameters = Some df'
    /\ getitem df "Omega" = None
    /\ getitem df' "Omega" = None
    /\ is_Some (getitem df' "Omega_m").
Proof.
  intros Hp Hl. unfold weight_by_likelihood. rewrite Hp.
  eexists _, _. split; [reflexivity|]. split; [apply lookup_insert_eq|].
  assert (Hno : ~ In "Omega"%string (Sampler.par_labels ++ ["weight"%string])).
  { vm_compute. intros H. repeat (destruct H as [H|H]; [discriminate|]). exact H. }
  assert (Hl' : map fst (set_column "weight"
                           (repeat (likelihood parameters) (nrows df)) (columns df))
                = Sampler.par_labels ++ ["weight"%string]).
  { rewrite labels_set_column. fold (labels df). rewrite Hl.
    destruct (has_label "weight" (columns df)) eqn:E; [|reflexivity].
    apply has_label_labels in E. fold (labels df) in E. rewrite Hl in E.
    vm_compute in E. repeat (destruct E as [E|E]; [discriminate|]). contradiction. }
  unfold getitem, setitem_scalar. cbn [columns]. split; [|split].
  - apply getitem_cols_absent. fold (labels df). rewrite Hl.
    intros H. apply Hno, in_or_app. by left.
  - apply getitem_cols_absent. by rewrite Hl'.
  - apply getitem_cols_present. rewrite Hl'. vm_compute. tauto.
Qed.

Lemma Omega_is_not_a_column_witness :
  exists (h' : store) (df' : DataFrame),
    weight_by_likelihood 0%nat MoreInputs.one_frame = Some (0%nat, h')
    /\ h' !! 0%nat = Some df'
    /\ getitem (DataFrame_ones 2 par_labels) "Omega" = None
    /\ getitem df' "Omega" = None
    /\ is_Some (getitem df' "Omega_m").
Proof.
  apply (Omega_is_not_a_column MoreInputs.one_frame 0%nat
           (DataFrame_ones 2 par_labels)); reflexivity.
Defined.

(** ** More on the generator cells *)

Import Kernel Notebook.

Lemma variates_shifted (t : nat -> Q) p a n :
  Numpy.variates n {| Numpy.tape := Rerun.shifted t p; Numpy.pos := a |}
  = Numpy.variates n {| Numpy.tape := t; Numpy.pos := p + a |}.
Proof.
  unfold Numpy.variates. cbn [Numpy.tape Numpy.pos].
  rewrite (map_seq_from (Rerun.shifted t p)), (map_seq_from t).
  apply map_ext. intros i. unfold Rerun.shifted. f_equal. lia.
Qed.

(** X14: run in a kernel whose random state has given [p] variates and
    whose namespace is [g0], In [1] to In [8] complete, take the next 1500
    variates, and bind what a new kernel would bind from them; names of
    [g0] that the cells do not bind stay as they are. *)
Theorem rerun_draws_the_next_population
    (distmod : Q -> Q -> Q -> Q) (t : nat -> Q) (p : nat)
    (g0 : gmap string value) :
  run_all (firstn 8 (generator_cells distmod))
    {| globals := g0; random := {| Numpy.tape := t; Numpy.pos := p |} |}
  = (Completed,
     {| globals := generated distmod (Rerun.shifted t p) ∪ g0;
        random := {| Numpy.tape := t; Numpy.pos := p + 1500 |} |}).
Proof.
  unfold run_all, generator_cells. cbn [firstn run_from].
  repeat (rewrite run_cell_ok by (vm_compute; reflexivity);
          cbn [body cell_1 cell_2 cell_3 cell_4 cell_5 cell_6 cell_7 cell_8];
          repeat (progress step)).
  unfold generated. rewrite <- !insert_union_l, (left_id_L ∅ (∪)).
  unfold mu_dist, z_dist, c_obs_dist, c_obs_unc, c_true_dist,
    c_true_exp, c_true_norm, x1_obs_dist, x1_obs_unc, x1_true_dist, state_after.
  cbn [fst Numpy.random_normal Numpy.random_exponential Numpy.random_uniform].
  rewrite !variates_shifted.
  unfold Numpy.advance. cbn [Numpy.tape Numpy.pos].
  replace (p + 0 * 250)%nat with p by lia.
  replace (p + 1 * 250)%nat with (p + 250)%nat by lia.
  replace (p + 2 * 250)%nat with (p + 250 + 250)%nat by lia.
  replace (p + 3 * 250)%nat with (p + 250 + 250 + 250)%nat by lia.
  replace (p + 4 * 250)%nat with (p + 250 + 250 + 250 + 250)%nat by lia.
  replace (p + 5 * 250)%nat with (p + 250 + 250 + 250 + 250 + 250)%nat by lia.
  replace (p + 1500)%nat with (p + 250 + 250 + 250 + 250 + 250 + 250)%nat by lia.
  reflexivity.
Qed.

(** X15: every redshift drawn lies between 0.2 and 1.0, both included
    (so every redshift is positive), given uniform variates in [0, 1). *)
Theorem redshifts_stay_in_range
    (distmod : Q -> Q -> Q -> Q) (t : nat -> Q) (rest : list cell) :
  (forall j, (1250 <= j < 1500)%nat -> 0 <= t j /\ t j < 1) ->
  exists z : Numpy.array,
    globals (snd (run_all (generator_cells distmod ++ rest) (fresh t)))
      !! "z_dist" = Some (VArray z)
    /\ length z = 250%nat
    /\ Forall (fun zi => 0.2 <= zi /\ zi <= 1.0) z.
Proof.
  intros Ht. exists (z_dist t).
  rewrite run_notebook. cbn [snd globals generated_kernel]. unfold generated.
  split; [lookup_ns; reflexivity|].
  unfold z_dist, state_after.
  cbn [fst Numpy.random_uniform]. unfold Numpy.variates. cbn [Numpy.tape Numpy.pos].
  split; [by rewrite !length_map, length_seq|].
  rewrite map_map. apply Forall_forall. intros zi Hz.
  apply list_elem_of_In, in_map_iff in Hz as (j & <- & Hj).
  apply in_seq in Hj. destruct (Ht j) as [H0 H1]; [lia|].
  split; Lqa.lra.
Qed.

Lemma redshifts_stay_in_range_witness :
  exists z : Numpy.array,
    Kernel.globals
      (snd (run_all (generator_cells Inputs.distmod ++ []) (fresh MoreInputs.half)))
      !! "z_dist" = Some (VArray z)
    /\ length z = 250%nat
    /\ Forall (fun zi => 0.2 <= zi /\ zi <= 1.0) z.
Proof.
  apply (redshifts_stay_in_range Inputs.distmod MoreInputs.half []).
  intros j _. unfold MoreInputs.half. split; [discriminate | reflexivity].
Defined.

(** X16: every array the cells bind has one entry per object, 250. *)
Theorem generated_arrays_have_one_entry_per_object
    (distmod : Q -> Q -> Q -> Q) (t : nat -> Q) (rest : list cell) :
  Forall (fun name =>
            exists a : Numpy.array,
              globals (snd (run_all (generator_cells distmod ++ rest) (fresh t)))
                !! name = Some (VArray a)
              /\ length a = 250%nat)
    [ "x1_true_dist"; "x1_obs_unc"; "x1_obs_dist"; "c_true_norm"; "c_true_exp";
      "c_true_dist"; "c_obs_unc"; "c_obs_dist"; "z_dist"; "mu_dist" ]%string.
Proof.
  rewrite run_notebook. cbn [snd globals generated_kernel]. unfold generated.
  repeat constructor; eexists; (split; [lookup_ns; reflexivity|]);
    unfold mu_dist, z_dist, c_obs_dist, c_obs_unc, c_true_dist,
      c_true_exp, c_true_norm, x1_obs_dist, x1_obs_unc, x1_true_dist;
    lengths.
Qed.

(** X17: In [8], run with the class imported and an [Omega_m] that is
    not negative when [z_dist] is not bound, raises a NameError after it
    has bound [cosmo]: the binding stays, and no [mu_dist] is bound. *)
Theorem cell_8_fails_after_binding_cosmo
    (distmod : Q -> Q -> Q -> Q) (k : kernel) (Om0 : Q) :
  globals k !! "FlatLambdaCDM" = Some (VClass "astropy.cosmology.FlatLambdaCDM") ->
  globals k !! "Omega_m" = Some (VFloat Om0) ->
  0 <= Om0 ->
  globals k !! "z_dist" = None ->
  run_cell (cell_8 distmod) k
  = (Raise (NameError "z_dist"),
     {| globals := <["cosmo" := VCosmology 70 Om0]> (globals k);
        random := random k |}).
Proof.
  intros Hc HOm H0 Hz.
  rewrite run_cell_ok by (vm_compute; reflexivity).
  cbn [body cell_8].
  cbv [mbind py_bind mret py_ret load store raise load_array load_float].
  rewrite Hc, HOm.
  change (String.eqb "astropy.cosmology.FlatLambdaCDM" Astropy.class_name)
    with true.
  rewrite Om0_accepted_true by exact H0.
  cbn [globals random]. lookup_ns.
  cbn [globals random]. lookup_ns. rewrite Hz. reflexivity.
Qed.

Lemma cell_8_fails_after_binding_cosmo_witness :
  run_cell (cell_8 Inputs.distmod) MoreInputs.kernel_without_draws
  = (Raise (NameError "z_dist"),
     {| Kernel.globals :=
          <["cosmo" := VCosmology 70 0.3]>
            (Kernel.globals MoreInputs.kernel_without_draws);
        Kernel.random := Kernel.random MoreInputs.kernel_without_draws |}).
Proof.
  apply (cell_8_fails_after_binding_cosmo Inputs.distmod
           MoreInputs.kernel_without_draws 0.3);
    [reflexivity | reflexivity | discriminate | reflexivity].
Defined.

Lemma population_lengths (distmod : Q -> Q -> Q -> Q) (t : nat -> Q) :
  length (x1_true_dist t) = 250%nat /\ length (c_true_dist t) = 250%nat
  /\ length (mu_dist distmod t) = 250%nat.
Proof.
  unfold mu_dist, z_dist, c_true_dist, c_true_exp, c_true_norm, x1_true_dist.
  repeat split; lengths.
Qed.

(** X18: the two complete statements of In [9] bind, for every object,
    [mb_true_mean = -19.1 - 0.13 * x1_true + 3.0 * c_true + mu], and
    [mb_true_var = 0.15 ** 2]; they draw nothing and bind no [mb_true]. *)
Theorem mean_magnitude_relation (distmod : Q -> Q -> Q -> Q) (t : nat -> Q) :
  exists (k : kernel) (mean : Numpy.array),
    body cell_9 (generated_kernel distmod t) = (Ok tt, k)
    /\ globals k !! "mb_true_mean" = Some (VArray mean)
    /\ globals k !! "mb_true_var" = Some (VFloat (0.15 ^ 2))
    /\ globals k !! "mb_true" = None
    /\ random k = random (generated_kernel distmod t)
    /\ length mean = 250%nat
    /\ forall (i : nat) (x c m : Q),
         x1_true_dist t !! i = Some x ->
         c_true_dist t !! i = Some c ->
         mu_dist distmod t !! i = Some m ->
         exists v : Q, mean !! i = Some v /\ v == -19.1 - 0.13 * x + 3.0 * c + m.
Proof.
  destruct (population_lengths distmod t) as (Lx & Lc & Lm).
  assert (L1 : length (zip_with Qplus
                         (Numpy.scalar_sub (-19.1)
                            (Numpy.scalar_mul 0.13 (x1_true_dist t)))
                         (Numpy.scalar_mul 3.0 (c_true_dist t))) = 250%nat).
  { apply length_zip_same; lengths; assumption. }
  eexists _, _. split.
  - unfold generated_kernel, generated. cbn [body cell_9].
    cbv [mbind py_bind mret py_ret load store shaped raise
         load_array load_float globals random].
    lookup_ns.
    rewrite (elementwise_eq Qplus
               (Numpy.scalar_sub (-19.1) (Numpy.scalar_mul 0.13 (x1_true_dist t)))
               (Numpy.scalar_mul 3.0 (c_true_dist t)))
      by (lengths; congruence).
    rewrite elementwise_eq by congruence.
    lookup_ns. reflexivity.
  - cbn [globals random generated_kernel].
    split; [lookup_ns; reflexivity|]. split; [lookup_ns; reflexivity|].
    split; [unfold generated; lookup_ns; reflexivity|].
    split; [reflexivity|].
    split; [apply length_zip_same; assumption|].
    intros i x c m Hx Hc Hm. unfold Numpy.array in *.
    rewrite !lookup_zip_with. unfold Numpy.scalar_sub, Numpy.scalar_mul.
    rewrite !list_lookup_fmap, Hx, Hc, Hm. cbn.
    eexists. split; [reflexivity|]. reflexivity.
Qed.
